(** * LLMConsole: the command router of [console.py]

    A shallow embedding of [console.py]: the shell detector
    [detect_shell], the prompt composer [get_system_prompt], the
    translation step [call_llm], the executor [execute_command] and the
    interactive loop of [main], followed by the properties the
    specification states about them.

    Strings.  A Python [str] is modelled by [string]; a character is the
    code point it denotes, so the model covers the strings whose code
    points are below 256.  [lower], [isspace] and [strip] are Python's
    [str.lower], [str.isspace] and [str.strip] on that range.

    Effects.  The program reads the process environment and talks to
    the line reader ([session.prompt]), the model
    ([llm.create_chat_completion], loaded once by [configure_llm]) and
    the operating system ([subprocess.run]); and it writes with [print].
    Each call is recorded as an [event]; the collaborators are oracles
    of a [World] that answer a call from the events that came before it,
    so that two calls with the same arguments may be answered
    differently.  The loop of [main] is run for a bounded number of
    passes; a run that has not left the loop by then is at [Idle]. *)

From Stdlib Require Import Ascii ZArith.
From stdpp Require Import gmap strings.

(** ** Strings *)

Module Str.

Definition code (c : ascii) : N := N_of_ascii c.

(** [str.lower] on one code point below 256: the ASCII capitals and the
    Latin-1 capitals U+00C0..U+00DE (without the sign U+00D7) move up by
    32; every other code point is its own lower case. *)
Definition lower_char (c : ascii) : ascii :=
  let n := code c in
  if ((65 <=? n) && (n <=? 90))%N then ascii_of_N (n + 32)
  else if ((192 <=? n) && (n <=? 222) && negb (n =? 215))%N
       then ascii_of_N (n + 32)
       else c.

Fixpoint lower (s : string) : string :=
  match s with
  | EmptyString => EmptyString
  | String c r => String (lower_char c) (lower r)
  end.

(** [str.isspace] on one code point below 256. *)
Definition isspace (c : ascii) : bool :=
  let n := code c in
  (((9 <=? n) && (n <=? 13)) || ((28 <=? n) && (n <=? 32))
   || (n =? 133) || (n =? 160))%N.

Fixpoint lstrip (s : string) : string :=
  match s with
  | EmptyString => EmptyString
  | String c r => if isspace c then lstrip r else s
  end.

Fixpoint rstrip (s : string) : string :=
  match s with
  | EmptyString => EmptyString
  | String c r =>
      match rstrip r with
      | EmptyString => if isspace c then EmptyString else String c EmptyString
      | r' => String c r'
      end
  end.

Definition strip (s : string) : string := rstrip (lstrip s).

(** [s.startswith(p)]. *)
Definition startswith (s p : string) : bool := String.prefix p s.

(** [needle in hay] on strings: [needle] occurs at some position. *)
Fixpoint contains (needle hay : string) : bool :=
  String.prefix needle hay
  || match hay with
     | EmptyString => false
     | String _ r => contains needle r
     end.

(** [s[1:]]. *)
Definition slice_from_1 (s : string) : string :=
  match s with
  | EmptyString => EmptyString
  | String _ r => r
  end.

(** Truth value of a string: the empty string is false. *)
Definition truthy (s : string) : bool :=
  match s with
  | EmptyString => false
  | String _ _ => true
  end.

(** A string of white space only. *)
Fixpoint all_space (s : string) : bool :=
  match s with
  | EmptyString => true
  | String c r => isspace c && all_space r
  end.

Definition newline : string := String (ascii_of_N 10) EmptyString.

End Str.

(** ** Shell detection and prompt composition *)

(** [os.environ]: a mapping from variable names to values.  The two
    names [detect_shell] asks for are looked up as the program spells
    them.  On Windows [os.environ] folds every name to capitals when a
    variable is stored or looked up, so there a name stands for all its
    letter cases. *)
Abbreviation environment := (gmap string string).

(** [a or b] on optional strings: [a] when it is a non-empty string,
    otherwise [b]. *)
Definition py_or (a b : option string) : option string :=
  match a with
  | Some s => if Str.truthy s then a else b
  | None => b
  end.

Definition detect_shell (environ : environment) : string :=
  let shell := py_or (environ !! "SHELL") (environ !! "ComSpec") in
  match shell with
  | None => "unknown"
  | Some shell =>
      if Str.contains "bash" shell then "bash"
      else if Str.contains "powershell" (Str.lower shell) then "powershell"
      else if Str.contains "cmd" (Str.lower shell) then "cmd"
      else "unknown"
  end.

Definition get_system_prompt (shell : string) : string :=
  "You are an assistant that generates valid and safe shell commands for the '"
  +:+ shell +:+ "' environment. "
  +:+ "Always return a single shell command in response to the user's request. Do not provide explanations.".

(** ** Collaborators, events and the effect monad *)

(** The exceptions the program meets.  [Exception name] stands for any
    exception class the program never names. *)
Inductive exn : Type :=
| KeyboardInterrupt
| EOFError
| CalledProcessError (returncode : Z) (stderr : string)
| IndexError
| AttributeError
| Exception (name : string).

Inductive outcome (A : Type) : Type :=
| Ok (a : A)
| Raise (e : exn).
Arguments Ok {A} a.
Arguments Raise {A} e.

(** One entry of the [messages] list. *)
Record message : Type := Message { role : string; content : string }.

(** The part of a chat completion the program reads:
    [response["choices"][i]["message"]["content"]], which the model
    library types as an optional string. *)
Record choice : Type := Choice { message_content : option string }.
Record chat_completion : Type := ChatCompletion { choices : list choice }.

(** What [subprocess.run(..., capture_output=True, text=True)] collects
    once the child has ended. *)
Record completed_process : Type :=
  CompletedProcess { returncode : Z; stdout : string; stderr : string }.

Inductive event : Type :=
| EvPrompt (text : string)
| EvPrint (text : string)
| EvChatCompletion (messages : list message) (max_tokens : Z) (stop : list string)
| EvRun (command : string)
| EvLoadModel (repo_id filename : string).

Abbreviation history := (list event).

Record World : Type := {
  environ : environment;
  (** [session.prompt(text)]: a line, or [KeyboardInterrupt], [EOFError]. *)
  reader : history -> string -> outcome string;
  (** [llm.create_chat_completion(messages, max_tokens, stop)]. *)
  model : history -> list message -> Z -> list string -> outcome chat_completion;
  (** The child process run by the host shell on a command string. *)
  shell_run : history -> string -> outcome completed_process;
  (** [hf_hub_download] followed by [Llama(model_path=...)]: the handle
      it yields is the [model] oracle above. *)
  load_model : string -> string -> outcome unit
}.

(** A computation reads the events before it and yields a result or an
    exception, with the events it added. *)
Definition M (A : Type) : Type := history -> outcome A * list event.

Definition ret {A} (a : A) : M A := fun _ => (Ok a, []).

Definition raise {A} (e : exn) : M A := fun _ => (Raise e, []).

Definition bind {A B} (m : M A) (f : A -> M B) : M B :=
  fun h =>
    match m h with
    | (Ok a, es) => let '(r, es') := f a (h ++ es) in (r, es ++ es')
    | (Raise e, es) => (Raise e, es)
    end.

(** [try: body  except ...: handler]; a handler answers [None] for the
    exceptions its clauses do not name, which then go on upwards. *)
Definition try_except {A} (body : M A) (handler : exn -> option (M A)) : M A :=
  fun h =>
    match body h with
    | (Ok a, es) => (Ok a, es)
    | (Raise e, es) =>
        match handler e with
        | Some k => let '(r, es') := k (h ++ es) in (r, es ++ es')
        | None => (Raise e, es)
        end
    end.

Notation "x <- m ;; k" := (bind m (fun x => k))
  (at level 100, m at next level, right associativity).
Notation "m ;;; k" := (bind m (fun _ => k))
  (at level 100, right associativity).

(** A call to a collaborator: the call is recorded, the oracle answers. *)
Definition call {A} (ev : event) (answer : history -> outcome A) : M A :=
  fun h => (answer h, [ev]).

Definition print (text : string) : M unit :=
  call (EvPrint text) (fun _ => Ok tt).

(** ** The program *)

Section Program.

Context (w : World).

Definition session_prompt (text : string) : M string :=
  call (EvPrompt text) (fun h => reader w h text).

Definition create_chat_completion
    (messages : list message) (max_tokens : Z) (stop : list string)
  : M chat_completion :=
  call (EvChatCompletion messages max_tokens stop)
       (fun h => model w h messages max_tokens stop).

(** [subprocess.run(command, shell=True, check=True, text=True,
    capture_output=True)]: with [check], a non-zero return code is
    raised as [CalledProcessError]. *)
Definition subprocess_run (command : string) : M completed_process :=
  result <- call (EvRun command) (fun h => shell_run w h command) ;;
  if (returncode result =? 0)%Z then ret result
  else raise (CalledProcessError (returncode result) (stderr result)).

(** [response["choices"][0]["message"]["content"].strip()] *)
Definition first_choice_content_stripped (response : chat_completion) : M string :=
  match choices response with
  | [] => raise IndexError
  | c :: _ =>
      match message_content c with
      | None => raise AttributeError
      | Some text => ret (Str.strip text)
      end
  end.

Definition call_llm (command : string) : M string :=
  let shell := detect_shell (environ w) in
  let system_prompt := get_system_prompt shell in
  let messages :=
    [ Message "system" system_prompt; Message "user" command ] in
  response <- create_chat_completion messages 50 [Str.newline] ;;
  suggested_command <- first_choice_content_stripped response ;;
  print ("LLM suggested command for '" +:+ shell +:+ "': " +:+ suggested_command) ;;;
  ret suggested_command.

Definition execute_command (command : string) : M unit :=
  try_except
    (result <- subprocess_run command ;;
     print (stdout result))
    (fun e =>
       match e with
       | CalledProcessError _ err => Some (print err)
       | _ => None
       end).

(** What one pass through the body of [while True] does to the loop. *)
Inductive control : Type := Continue | Break.

Definition confirmation_text (llm_command : string) : string :=
  "LLM suggested command: " +:+ llm_command +:+ Str.newline
  +:+ "Do you want to execute this command? (yes/no): ".

Definition affirmative : gset string := {[ "yes"; "y" ]}.

Definition loop_body : M control :=
  try_except
    (user_input <- session_prompt "> " ;;
     if String.eqb (Str.lower user_input) "exit" then
       print "Goodbye!" ;;;
       ret Break
     else if Str.startswith user_input "!" then
       llm_command <- call_llm (Str.strip (Str.slice_from_1 user_input)) ;;
       answer <- session_prompt (confirmation_text llm_command) ;;
       let confirmation := Str.lower (Str.strip answer) in
       (if bool_decide (confirmation ∈ affirmative)
        then execute_command llm_command
        else print "Command execution skipped.") ;;;
       ret Continue
     else
       execute_command user_input ;;;
       ret Continue)
    (fun e =>
       match e with
       | KeyboardInterrupt =>
           Some (print (Str.newline +:+ "Operation canceled.") ;;; ret Continue)
       | EOFError =>
           Some (print (Str.newline +:+ "Exiting.") ;;; ret Break)
       | _ => None
       end).

(** Where the router is after some passes: waiting for the next line, or
    left the loop.  An exception no clause catches ends the session; it
    is the [Raise] outcome of the loop. *)
Inductive router_state : Type := Idle | Terminated.

(** [while True: ...], for at most [passes] passes. *)
Fixpoint main_loop (passes : nat) : M router_state :=
  match passes with
  | O => ret Idle
  | S n =>
      c <- loop_body ;;
      match c with
      | Break => ret Terminated
      | Continue => main_loop n
      end
  end.

Definition configure_llm (repo_id filename : string) : M unit :=
  call (EvLoadModel repo_id filename) (fun _ => load_model w repo_id filename).

(** [main], with the loop cut after [passes] passes.  The prompt session
    and the word completer are built without any effect the properties
    below depend on. *)
Definition main (passes : nat) : M router_state :=
  configure_llm "TheBloke/LLaMA-2-7B-chat-GGUF" "llama-2-7b-chat.ggmlv3.q6_K.bin" ;;;
  print "Welcome to the Custom Command Interface! Type your commands below." ;;;
  print ("Use '!' to invoke the LLM. Type 'exit' to quit." +:+ Str.newline) ;;;
  main_loop passes.

End Program.

(** ** Reading a run *)

Definition is_chat_completion (ev : event) : bool :=
  match ev with EvChatCompletion _ _ _ => true | _ => false end.

Definition is_run (ev : event) : bool :=
  match ev with EvRun _ => true | _ => false end.

Definition is_prompt (ev : event) : bool :=
  match ev with EvPrompt _ => true | _ => false end.

Definition is_print_of (text : string) (ev : event) : bool :=
  match ev with EvPrint t => String.eqb t text | _ => false end.

Definition count (p : event -> bool) (es : list event) : nat :=
  length (List.filter p es).

(** Calls of the translation step, of the executor, and prompts shown. *)
Definition translations (es : list event) : nat := count is_chat_completion es.
Definition executions (es : list event) : nat := count is_run es.
Definition prompts (es : list event) : nat := count is_prompt es.
Definition printed (text : string) (es : list event) : nat :=
  count (is_print_of text) es.

(** The call [call_llm] makes to the model, and the line it prints. *)
Definition translation_request (w : World) (command : string) : event :=
  EvChatCompletion
    [ Message "system" (get_system_prompt (detect_shell (environ w)));
      Message "user" command ]
    50 [Str.newline].

Definition suggestion_echo (w : World) (suggested_command : string) : event :=
  EvPrint ("LLM suggested command for '" +:+ detect_shell (environ w)
           +:+ "': " +:+ suggested_command).

(** The instruction the router hands to [call_llm] for a line. *)
Definition instruction_of (line : string) : string :=
  Str.strip (Str.slice_from_1 line).

(** What the executor prints for a child that has ended. *)
Definition report (res : completed_process) : event :=
  EvPrint (if (returncode res =? 0)%Z then stdout res else stderr res).

(** The events of a pass up to the confirmation prompt, and up to the
    call of the executor. *)
Definition confirmation_history
    (w : World) (h : history) (line cmd : string) : history :=
  h ++ [ EvPrompt "> "; translation_request w (instruction_of line);
         suggestion_echo w cmd ].

Definition execution_history
    (w : World) (h : history) (line cmd : string) : history :=
  h ++ [ EvPrompt "> "; translation_request w (instruction_of line);
         suggestion_echo w cmd; EvPrompt (confirmation_text cmd) ].

(** The model answered the request made for [line] with a completion
    whose first choice has a text, and [cmd] is that text, stripped. *)
Definition translates (w : World) (h : history) (line cmd : string) : Prop :=
  exists response text rest,
    model w (h ++ [EvPrompt "> "])
      [ Message "system" (get_system_prompt (detect_shell (environ w)));
        Message "user" (instruction_of line) ] 50 [Str.newline] = Ok response
    /\ choices response = Choice (Some text) :: rest
    /\ cmd = Str.strip text.

(** The translation of [line] ends with exception [e]: the model call
    raises it, or the completion has no choice ([IndexError]) or its
    first choice has no text ([AttributeError]). *)
Definition translation_fails
    (w : World) (h : history) (line : string) (e : exn) : Prop :=
  let asked :=
    model w (h ++ [EvPrompt "> "])
      [ Message "system" (get_system_prompt (detect_shell (environ w)));
        Message "user" (instruction_of line) ] 50 [Str.newline] in
  asked = Raise e
  \/ (exists response,
        asked = Ok response /\ choices response = [] /\ e = IndexError)
  \/ (exists response rest,
        asked = Ok response /\ choices response = Choice None :: rest
        /\ e = AttributeError).

(** The confirmation line, trimmed and compared without regard to letter
    case, is "yes" or "y". *)
Definition affirms (answer : string) : Prop :=
  Str.lower (Str.strip answer) = "yes" \/ Str.lower (Str.strip answer) = "y".

(** ** Vocabulary of the properties *)

(** [needle] occurs in [hay]. *)
Definition occurs (needle hay : string) : Prop :=
  exists before after, hay = before +:+ needle +:+ after.

(** Some spelling of [needle], in whatever letter case, occurs in [hay]. *)
Definition occurs_any_case (needle hay : string) : Prop :=
  exists spelling, Str.lower spelling = needle /\ occurs spelling hay.

(** The detector classifies the fallback variable: the primary one is
    absent, or set to the empty string. *)
Definition uses_fallback (environ : environment) : Prop :=
  environ !! "SHELL" = None \/ environ !! "SHELL" = Some "".

(** The chain of tests of [detect_shell] on the string it classifies. *)
Definition classify (shell : string) : string :=
  if Str.contains "bash" shell then "bash"
  else if Str.contains "powershell" (Str.lower shell) then "powershell"
  else if Str.contains "cmd" (Str.lower shell) then "cmd"
  else "unknown".

(** The capital of a small ASCII letter. *)
Definition upper_char (c : ascii) : ascii :=
  let n := Str.code c in
  if ((97 <=? n) && (n <=? 122))%N then ascii_of_N (n - 32) else c.

(** The spellings of a word in every mix of small and capital ASCII
    letters. *)
Fixpoint letter_casings (word : string) : list string :=
  match word with
  | EmptyString => [EmptyString]
  | String c r =>
      let rest := letter_casings r in
      map (String c) rest ++ map (String (upper_char c)) rest
  end.

(** ** Worlds for the examples *)

(** A world that reads its lines from a script: the [n]-th prompt is
    answered by the [n]-th entry, and the end of the script is the end
    of the input. *)
Definition scripted (lines : list (outcome string)) (h : history) (_ : string)
  : outcome string :=
  nth (prompts h) lines (Raise EOFError).

Definition replies (text : string) : chat_completion :=
  ChatCompletion [ Choice (Some text) ].

(** A session for the examples: the lines come from a script, the model
    and the child process answer every call the same way. *)
Definition session
    (vars : environment) (lines : list (outcome string))
    (completion : outcome chat_completion)
    (child : outcome completed_process) : World :=
  {| environ := vars;
     reader := scripted lines;
     model := fun _ _ _ _ => completion;
     shell_run := fun _ _ => child;
     load_model := fun _ _ => Ok tt |}.

Definition bash_vars : environment := {[ "SHELL" := "/bin/bash" ]}.

Definition suggests_ls : outcome chat_completion :=
  Ok (replies " ls -la ").

Definition child_ok : outcome completed_process :=
  Ok (CompletedProcess 0 "console.py" "").

Definition child_failed : outcome completed_process :=
  Ok (CompletedProcess 127 "" "sh: 1: not found").

Definition model_error : outcome chat_completion :=
  Raise (Exception "ValueError").

Definition no_choices : outcome chat_completion := Ok (ChatCompletion []).

Definition empty_text : outcome chat_completion := Ok (replies "").

Definition env_cmdr_bash : environment :=
  {[ "SHELL" := "/home/cmdr/bin/bash" ]}.

Definition env_bash_and_powershell : environment :=
  <[ "SHELL" := "/usr/bin/bash" ]>
    {[ "ComSpec" := "C:\Windows\System32\WindowsPowerShell\v1.0\powershell.exe" ]}.

Definition env_comspec (value : string) : environment :=
  {[ "ComSpec" := value ]}.

Definition env_shell (value : string) : environment :=
  {[ "SHELL" := value ]}.

(** ** Notices, startup and further worlds *)

(** The lines the router prints when a wait is interrupted, and when the
    input has ended. *)
Definition cancel_notice : event :=
  EvPrint (Str.newline +:+ "Operation canceled.").

Definition exit_notice : event :=
  EvPrint (Str.newline +:+ "Exiting.").

(** The events of a pass from the prompt up to the confirmation prompt,
    when the translation of [line] gave [cmd]. *)
Definition confirmation_events (w : World) (line cmd : string) : list event :=
  [ EvPrompt "> "; translation_request w (instruction_of line);
    suggestion_echo w cmd; EvPrompt (confirmation_text cmd) ].

(** What [main] does before the loop: the model is loaded with the
    default arguments of [configure_llm], then the banner is printed. *)
Definition startup_events : list event :=
  [ EvLoadModel "TheBloke/LLaMA-2-7B-chat-GGUF" "llama-2-7b-chat.ggmlv3.q6_K.bin";
    EvPrint "Welcome to the Custom Command Interface! Type your commands below.";
    EvPrint ("Use '!' to invoke the LLM. Type 'exit' to quit." +:+ Str.newline) ].

(** A world in which the model file cannot be fetched. *)
Definition offline : World :=
  {| environ := bash_vars;
     reader := scripted [Ok "dir"; Ok "exit"];
     model := fun _ _ _ _ => suggests_ls;
     shell_run := fun _ _ => child_ok;
     load_model := fun _ _ => Raise (Exception "ConnectionError") |}.

Definition child_interrupted : outcome completed_process :=
  Raise KeyboardInterrupt.

Definition child_not_started : outcome completed_process :=
  Raise (Exception "ValueError").

Definition env_bash_in_a_terminal : environment :=
  <[ "TERM" := "xterm-256color" ]> bash_vars.

(** ** The child process behind a run *)


(** The text layer of a pipe under [text=True]: the bytes decoded with
    the codec of the locale, strictly, and the line ends translated; or
    nothing, where the decoder raises [UnicodeDecodeError]. *)
Abbreviation text_layer := (list Byte.byte -> option string).











(** ** Facts about strings *)

Lemma append_nil (s : string) : "" +:+ s = s.
Proof. reflexivity. Qed.

Lemma append_cons (x : ascii) (a b : string) :
  String x a +:+ b = String x (a +:+ b).
Proof. reflexivity. Qed.

Ltac push_append := rewrite ?append_cons, ?append_nil in *.

Lemma append_assoc (a b c : string) : (a +:+ b) +:+ c = a +:+ b +:+ c.
Proof. induction a as [|x a IH]; push_append; [reflexivity | now f_equal]. Qed.

Lemma append_length (a b : string) :
  String.length (a +:+ b) = String.length a + String.length b.
Proof.
  induction a as [|x a IH]; push_append; simpl; [reflexivity | now f_equal].
Qed.

Lemma prefix_iff (p s : string) :
  String.prefix p s = true <-> exists rest, s = p +:+ rest.
Proof.
  revert s. induction p as [|x p IH]; intros s.
  - destruct s; simpl; split; eauto.
  - destruct s as [|y s]; simpl.
    + split; [discriminate | intros [rest H]; discriminate].
    + destruct (Ascii.ascii_dec x y) as [->|Hne].
      * rewrite IH. split; intros [rest H]; exists rest; push_append; congruence.
      * split; [discriminate | intros [rest H]; push_append; congruence].
Qed.

Lemma contains_iff (needle hay : string) :
  Str.contains needle hay = true <-> occurs needle hay.
Proof.
  unfold occurs. induction hay as [|y hay IH].
  - cbn [Str.contains]. rewrite orb_false_r, prefix_iff. split.
    + intros [rest H]. exists "", rest. exact H.
    + intros (before & after & H). destruct before; [eauto | discriminate].
  - cbn [Str.contains]. rewrite orb_true_iff, prefix_iff, IH. split.
    + intros [[rest H] | (before & after & H)].
      * exists "", rest. exact H.
      * exists (String y before), after. push_append. now rewrite H.
    + intros (before & after & H). destruct before as [|x before].
      * left. exists after. exact H.
      * right. push_append. exists before, after. congruence.
Qed.

Lemma contains_false_iff (needle hay : string) :
  Str.contains needle hay = false <-> ~ occurs needle hay.
Proof. rewrite <- contains_iff. destruct (Str.contains needle hay); split; congruence. Qed.

Lemma lower_app (a b : string) :
  Str.lower (a +:+ b) = Str.lower a +:+ Str.lower b.
Proof.
  induction a as [|x a IH]; push_append; simpl; push_append;
    [reflexivity | now f_equal].
Qed.

Lemma lower_app_inv (s a b : string) :
  Str.lower s = a +:+ b ->
  exists a' b', s = a' +:+ b' /\ Str.lower a' = a /\ Str.lower b' = b.
Proof.
  revert s. induction a as [|x a IH]; intros s H.
  - exists "", s. auto.
  - destruct s as [|y s]; [discriminate|]. simpl in H. push_append.
    injection H as Hx Hs. destruct (IH _ Hs) as (a' & b' & -> & Ha & Hb).
    exists (String y a'), b'. simpl. rewrite Ha, Hx. auto.
Qed.

Lemma lower_length (s : string) : String.length (Str.lower s) = String.length s.
Proof. induction s as [|x s IH]; simpl; [reflexivity | now rewrite IH]. Qed.

Lemma contains_lower_iff (needle hay : string) :
  Str.contains needle (Str.lower hay) = true <-> occurs_any_case needle hay.
Proof.
  rewrite contains_iff. unfold occurs_any_case, occurs. split.
  - intros (before & after & H).
    destruct (lower_app_inv _ _ _ H) as (a' & r & -> & Ha & Hr).
    destruct (lower_app_inv _ _ _ Hr) as (n' & b' & -> & Hn & Hb).
    exists n'. split; [exact Hn | exists a', b'; reflexivity].
  - intros (spelling & Hs & before & after & ->).
    exists (Str.lower before), (Str.lower after).
    now rewrite !lower_app, Hs.
Qed.

Lemma contains_lower_false_iff (needle hay : string) :
  Str.contains needle (Str.lower hay) = false <-> ~ occurs_any_case needle hay.
Proof.
  rewrite <- contains_lower_iff.
  destruct (Str.contains needle (Str.lower hay)); split; congruence.
Qed.

(** A spelling as written is one of the spellings in any case. *)
Lemma occurs_any_case_exact (needle hay : string) :
  occurs needle hay -> occurs_any_case (Str.lower needle) hay.
Proof. intros H. exists needle. auto. Qed.

(** ** The shell detector *)

Lemma occurs_nonempty (needle hay : string) :
  Str.truthy needle = true -> occurs needle hay -> Str.truthy hay = true.
Proof.
  intros Hn (before & after & ->).
  destruct before; [destruct needle; [discriminate | reflexivity] | reflexivity].
Qed.

(** The string the detector classifies. *)
Lemma py_or_primary (environ : environment) (s : string) :
  environ !! "SHELL" = Some s -> Str.truthy s = true ->
  py_or (environ !! "SHELL") (environ !! "ComSpec") = Some s.
Proof. intros -> H. unfold py_or. now rewrite H. Qed.

Lemma py_or_fallback (environ : environment) :
  uses_fallback environ ->
  py_or (environ !! "SHELL") (environ !! "ComSpec") = environ !! "ComSpec".
Proof. intros [-> | ->]; reflexivity. Qed.

Lemma detect_shell_classify (environ : environment) (s : string) :
  py_or (environ !! "SHELL") (environ !! "ComSpec") = Some s ->
  detect_shell environ = classify s.
Proof. intros H. unfold detect_shell. now rewrite H. Qed.

Lemma classify_bash (s : string) : occurs "bash" s -> classify s = "bash".
Proof. intros H. apply contains_iff in H. unfold classify. now rewrite H. Qed.

Lemma classify_powershell (s : string) :
  ~ occurs "bash" s -> occurs_any_case "powershell" s ->
  classify s = "powershell".
Proof.
  intros Hb Hp. apply contains_false_iff in Hb. apply contains_lower_iff in Hp.
  unfold classify. now rewrite Hb, Hp.
Qed.

Lemma classify_cmd (s : string) :
  ~ occurs "bash" s -> ~ occurs_any_case "powershell" s ->
  occurs_any_case "cmd" s -> classify s = "cmd".
Proof.
  intros Hb Hp Hc. apply contains_false_iff in Hb.
  apply contains_lower_false_iff in Hp. apply contains_lower_iff in Hc.
  unfold classify. now rewrite Hb, Hp, Hc.
Qed.

Lemma classify_unknown (s : string) :
  ~ occurs "bash" s -> ~ occurs_any_case "powershell" s ->
  ~ occurs_any_case "cmd" s -> classify s = "unknown".
Proof.
  intros Hb Hp Hc. apply contains_false_iff in Hb.
  apply contains_lower_false_iff in Hp. apply contains_lower_false_iff in Hc.
  unfold classify. now rewrite Hb, Hp, Hc.
Qed.

(** The detector has no error path: it answers one of the four dialects. *)
Lemma detect_shell_dialect (environ : environment) :
  detect_shell environ ∈ ["bash"; "powershell"; "cmd"; "unknown"].
Proof.
  unfold detect_shell.
  destruct (py_or _ _) as [s|]; [|set_solver].
  destruct (Str.contains "bash" s); [set_solver|].
  destruct (Str.contains "powershell" _); [set_solver|].
  destruct (Str.contains "cmd" _); set_solver.
Qed.

Example detect_shell_bin_bash :
  detect_shell {[ "SHELL" := "/bin/bash" ]} = "bash".
Proof. vm_compute. reflexivity. Qed.

Example detect_shell_comspec :
  detect_shell {[ "ComSpec" := "C:\WINDOWS\system32\cmd.exe" ]} = "cmd".
Proof. vm_compute. reflexivity. Qed.

Ltac by_computation :=
  first [ apply contains_iff | apply contains_lower_iff
        | apply contains_false_iff | apply contains_lower_false_iff | idtac ];
  vm_compute; first [ reflexivity | intuition congruence ].

(** C3, as stated, fails: a primary variable that contains "cmd" is not
    classified as cmd when it also contains "bash", and a "powershell"
    match on the fallback variable is not looked at when the primary
    variable is set. *)
Lemma detect_shell_keyword_counterexample :
  (env_cmdr_bash !! "SHELL" = Some "/home/cmdr/bin/bash"
   /\ occurs "cmd" "/home/cmdr/bin/bash"
   /\ detect_shell env_cmdr_bash = "bash"
   /\ detect_shell env_cmdr_bash <> "cmd")
  /\ (env_bash_and_powershell !! "ComSpec"
        = Some "C:\Windows\System32\WindowsPowerShell\v1.0\powershell.exe"
      /\ occurs_any_case "powershell"
           "C:\Windows\System32\WindowsPowerShell\v1.0\powershell.exe"
      /\ detect_shell env_bash_and_powershell = "bash"
      /\ detect_shell env_bash_and_powershell <> "powershell").
Proof. repeat split; by_computation. Qed.

(** C3, amended: a primary variable that contains "bash" yields bash; a
    primary variable that contains "cmd", no "bash" and "powershell" in
    no letter case yields cmd; when the primary variable is absent or
    empty, a fallback variable that contains "powershell" in some letter
    case and no "bash" yields powershell; when both variables are absent
    the detector yields unknown. *)
Theorem detect_shell_by_priority (environ : environment) (s : string) :
  (environ !! "SHELL" = Some s -> occurs "bash" s ->
   detect_shell environ = "bash")
  /\ (environ !! "SHELL" = Some s -> occurs "cmd" s ->
      ~ occurs "bash" s -> ~ occurs_any_case "powershell" s ->
      detect_shell environ = "cmd")
  /\ (uses_fallback environ -> environ !! "ComSpec" = Some s ->
      occurs_any_case "powershell" s -> ~ occurs "bash" s ->
      detect_shell environ = "powershell")
  /\ (environ !! "SHELL" = None -> environ !! "ComSpec" = None ->
      detect_shell environ = "unknown").
Proof.
  repeat split.
  - intros Hs Hb.
    rewrite (detect_shell_classify environ s).
    + now apply classify_bash.
    + apply py_or_primary; [exact Hs | now apply (occurs_nonempty "bash")].
  - intros Hs Hc Hb Hp.
    rewrite (detect_shell_classify environ s).
    + apply classify_cmd; auto. now apply (occurs_any_case_exact "cmd").
    + apply py_or_primary; [exact Hs | now apply (occurs_nonempty "cmd")].
  - intros Hf Hs Hp Hb.
    rewrite (detect_shell_classify environ s).
    + now apply classify_powershell.
    + now rewrite py_or_fallback.
  - intros Hs Hc. unfold detect_shell. now rewrite Hs, Hc.
Qed.

Lemma detect_shell_by_priority_witness :
  detect_shell (env_shell "/bin/bash") = "bash"
  /\ detect_shell (env_shell "C:\Windows\system32\cmd.exe") = "cmd"
  /\ detect_shell (env_comspec "C:\Program Files\PowerShell\7\pwsh\PowerShell.EXE")
     = "powershell"
  /\ detect_shell ∅ = "unknown".
Proof.
  split; [|split; [|split]].
  - apply (detect_shell_by_priority (env_shell "/bin/bash") "/bin/bash");
      by_computation.
  - apply (detect_shell_by_priority (env_shell "C:\Windows\system32\cmd.exe")
             "C:\Windows\system32\cmd.exe"); by_computation.
  - apply (detect_shell_by_priority
             (env_comspec "C:\Program Files\PowerShell\7\pwsh\PowerShell.EXE")
             "C:\Program Files\PowerShell\7\pwsh\PowerShell.EXE");
      by_computation.
  - apply (detect_shell_by_priority ∅ ""); by_computation.
Defined.

(** On a value that spells "bash" in capitals the first test, which
    compares as written, does not fire. *)
Example detect_shell_capital_bash :
  detect_shell (env_comspec "C:\Program Files\Git\bin\BASH.EXE") = "unknown".
Proof. by_computation. Qed.

(** C4, as stated, fails: on the fallback variable "bash" is looked for
    as written, so a value that spells it in capitals is not classified
    as bash; and a value that contains "cmd" is not classified as cmd
    when an earlier test of the chain matches it. *)
Lemma detect_shell_fallback_counterexample :
  (uses_fallback (env_comspec "C:\Program Files\Git\bin\BASH.EXE")
   /\ occurs_any_case "bash" "C:\Program Files\Git\bin\BASH.EXE"
   /\ detect_shell (env_comspec "C:\Program Files\Git\bin\BASH.EXE") <> "bash")
  /\ (uses_fallback (env_comspec "C:\Tools\PowerShell\cmd.exe")
      /\ occurs_any_case "cmd" "C:\Tools\PowerShell\cmd.exe"
      /\ detect_shell (env_comspec "C:\Tools\PowerShell\cmd.exe") = "powershell"
      /\ detect_shell (env_comspec "C:\Tools\PowerShell\cmd.exe") <> "cmd").
Proof. repeat split; by_computation. Qed.

(** C4, amended: when the detector classifies the fallback variable, a
    value that contains "bash" as written yields bash; a value that
    contains "bash" in no letter case yields powershell when it contains
    "powershell" in some letter case, otherwise cmd when it contains
    "cmd" in some letter case, otherwise unknown. *)
Theorem detect_shell_fallback_keywords (environ : environment) (s : string) :
  uses_fallback environ -> environ !! "ComSpec" = Some s ->
  (occurs "bash" s -> detect_shell environ = "bash")
  /\ (~ occurs_any_case "bash" s -> occurs_any_case "powershell" s ->
      detect_shell environ = "powershell")
  /\ (~ occurs_any_case "bash" s -> ~ occurs_any_case "powershell" s ->
      occurs_any_case "cmd" s -> detect_shell environ = "cmd")
  /\ (~ occurs_any_case "bash" s -> ~ occurs_any_case "powershell" s ->
      ~ occurs_any_case "cmd" s -> detect_shell environ = "unknown").
Proof.
  intros Hf Hs.
  assert (Hd : detect_shell environ = classify s)
    by (apply detect_shell_classify; now rewrite py_or_fallback).
  assert (Hexact : ~ occurs_any_case "bash" s -> ~ occurs "bash" s)
    by (intros Hn Hb; apply Hn; now apply (occurs_any_case_exact "bash")).
  rewrite Hd. repeat split.
  - apply classify_bash.
  - intros Hb Hp. apply classify_powershell; auto.
  - intros Hb Hp Hc. apply classify_cmd; auto.
  - intros Hb Hp Hc. apply classify_unknown; auto.
Qed.

Lemma detect_shell_fallback_keywords_witness :
  detect_shell (env_comspec "C:\Program Files\Git\bin\bash.exe") = "bash"
  /\ detect_shell (env_comspec "C:\Program Files\PowerShell\7\PWSH\PowerShell.EXE")
     = "powershell"
  /\ detect_shell (env_comspec "C:\WINDOWS\system32\CMD.EXE") = "cmd"
  /\ detect_shell (env_comspec "C:\WINDOWS\explorer.exe") = "unknown".
Proof.
  split; [|split; [|split]].
  - apply (detect_shell_fallback_keywords
             (env_comspec "C:\Program Files\Git\bin\bash.exe")
             "C:\Program Files\Git\bin\bash.exe"); by_computation.
  - apply (detect_shell_fallback_keywords
             (env_comspec "C:\Program Files\PowerShell\7\PWSH\PowerShell.EXE")
             "C:\Program Files\PowerShell\7\PWSH\PowerShell.EXE"); by_computation.
  - apply (detect_shell_fallback_keywords
             (env_comspec "C:\WINDOWS\system32\CMD.EXE")
             "C:\WINDOWS\system32\CMD.EXE"); by_computation.
  - apply (detect_shell_fallback_keywords
             (env_comspec "C:\WINDOWS\explorer.exe")
             "C:\WINDOWS\explorer.exe"); by_computation.
Defined.

(** ** The prompt composer *)

(** C9: for every dialect name, [unknown] included, and indeed for every
    string, the composed system prompt contains the name as a substring. *)
Theorem system_prompt_names_dialect (shell : string) :
  occurs shell (get_system_prompt shell)
  /\ Str.contains shell (get_system_prompt shell) = true.
Proof.
  assert (H : occurs shell (get_system_prompt shell)).
  { unfold get_system_prompt. eexists _, _. reflexivity. }
  split; [exact H | now apply contains_iff].
Qed.

Example system_prompt_unknown :
  get_system_prompt (detect_shell ∅)
  = "You are an assistant that generates valid and safe shell commands for the 'unknown' environment. Always return a single shell command in response to the user's request. Do not provide explanations.".
Proof. vm_compute. reflexivity. Qed.

(** ** The executor, the translation step and the router *)

Ltac case_scrutinee :=
  match goal with
  | |- context [match ?x with _ => _ end] =>
      lazymatch x with
      | context [match _ with _ => _ end] => fail
      | _ => destruct x eqn:?
      end
  end.

Ltac unfold_router :=
  unfold loop_body, execute_command, call_llm, try_except, bind,
    subprocess_run, first_choice_content_stripped, create_chat_completion,
    session_prompt, print, call, ret, raise, bind;
  cbv zeta.

Ltac reduce_run :=
  cbn [app message_content]; rewrite <- ?app_assoc; cbn [app].

Ltac unfold_names :=
  unfold execution_history, confirmation_history, translates,
    translation_request, suggestion_echo, instruction_of, report in *.

Lemma startswith_bang_not_exit (line : string) :
  Str.startswith line "!" = true -> String.eqb (Str.lower line) "exit" = false.
Proof.
  unfold Str.startswith. intros H. apply prefix_iff in H as [rest ->].
  reflexivity.
Qed.

Lemma casing_lower_exit (line : string) :
  In line (letter_casings "exit") -> Str.lower line = "exit".
Proof.
  intros H. vm_compute in H.
  repeat (destruct H as [<- | H]; [reflexivity|]). destruct H.
Qed.

Section Router.

Context (w : World).


Lemma call_llm_completed
    (h : history) (command : string) (response : chat_completion)
    (text : string) (rest : list choice) :
  model w h
    [ Message "system" (get_system_prompt (detect_shell (environ w)));
      Message "user" command ] 50 [Str.newline] = Ok response ->
  choices response = Choice (Some text) :: rest ->
  call_llm w command h
  = (Ok (Str.strip text),
     [translation_request w command; suggestion_echo w (Str.strip text)]).
Proof.
  intros Hm Hc. unfold_names. unfold_router. now rewrite Hm, Hc.
Qed.

Lemma call_llm_requests_once (h : history) (command : string) :
  exists r tail,
    call_llm w command h = (r, translation_request w command :: tail)
    /\ translations tail = 0 /\ executions tail = 0 /\ prompts tail = 0.
Proof.
  unfold_names. unfold_router.
  repeat case_scrutinee; cbn; eexists _, _; repeat split; reflexivity.
Qed.

Lemma loop_body_exit (h : history) (line : string) :
  reader w h "> " = Ok line -> Str.lower line = "exit" ->
  loop_body w h = (Ok Break, [EvPrompt "> "; EvPrint "Goodbye!"]).
Proof. intros Hr Hl. unfold_router. now rewrite Hr, Hl. Qed.

Lemma loop_body_direct (h : history) (line : string) :
  reader w h "> " = Ok line ->
  Str.lower line <> "exit" -> Str.startswith line "!" = false ->
  exists r tail,
    loop_body w h = (r, EvPrompt "> " :: EvRun line :: tail)
    /\ translations tail = 0 /\ executions tail = 0 /\ prompts tail = 0.
Proof.
  intros Hr Hl Hb. apply String.eqb_neq in Hl.
  unfold_router. rewrite Hr, Hl, Hb.
  repeat case_scrutinee; cbn; eexists _, _; repeat split; reflexivity.
Qed.

Lemma loop_body_direct_completed
    (h : history) (line : string) (res : completed_process) :
  reader w h "> " = Ok line ->
  Str.lower line <> "exit" -> Str.startswith line "!" = false ->
  shell_run w (h ++ [EvPrompt "> "]) line = Ok res ->
  loop_body w h = (Ok Continue, [EvPrompt "> "; EvRun line; report res]).
Proof.
  intros Hr Hl Hb Hrun. apply String.eqb_neq in Hl.
  unfold_names. unfold_router. rewrite Hr, Hl, Hb, Hrun.
  destruct (returncode res =? 0)%Z; reflexivity.
Qed.

Lemma loop_body_translation (h : history) (line : string) :
  reader w h "> " = Ok line -> Str.startswith line "!" = true ->
  exists r tail,
    loop_body w h
    = (r, EvPrompt "> " :: translation_request w (instruction_of line) :: tail)
    /\ translations tail = 0.
Proof.
  intros Hr Hb. pose proof (startswith_bang_not_exit _ Hb) as Hne.
  unfold_names. unfold_router. rewrite Hr, Hne, Hb.
  repeat case_scrutinee; cbn; eexists _, _; split; reflexivity.
Qed.

Lemma loop_body_declined (h : history) (line cmd answer : string) :
  reader w h "> " = Ok line -> Str.startswith line "!" = true ->
  translates w h line cmd ->
  reader w (confirmation_history w h line cmd) (confirmation_text cmd) = Ok answer ->
  Str.lower (Str.strip answer) ∉ affirmative ->
  loop_body w h
  = (Ok Continue,
     [ EvPrompt "> "; translation_request w (instruction_of line);
       suggestion_echo w cmd; EvPrompt (confirmation_text cmd);
       EvPrint "Command execution skipped." ]).
Proof.
  intros Hr Hb (response & text & rest & Hm & Hc & ->) Hans Hno.
  pose proof (startswith_bang_not_exit _ Hb) as Hne.
  unfold_names. unfold_router.
  rewrite Hr, Hne, Hb, Hm, Hc. reduce_run. rewrite Hans.
  now rewrite bool_decide_eq_false_2 by exact Hno.
Qed.

Lemma loop_body_confirmed (h : history) (line cmd answer : string) :
  reader w h "> " = Ok line -> Str.startswith line "!" = true ->
  translates w h line cmd ->
  reader w (confirmation_history w h line cmd) (confirmation_text cmd) = Ok answer ->
  Str.lower (Str.strip answer) ∈ affirmative ->
  exists r tail,
    loop_body w h
    = (r, [ EvPrompt "> "; translation_request w (instruction_of line);
            suggestion_echo w cmd; EvPrompt (confirmation_text cmd);
            EvRun cmd ] ++ tail)
    /\ translations tail = 0 /\ executions tail = 0 /\ prompts tail = 0.
Proof.
  intros Hr Hb (response & text & rest & Hm & Hc & ->) Hans Hyes.
  pose proof (startswith_bang_not_exit _ Hb) as Hne.
  unfold_names. unfold_router.
  rewrite Hr, Hne, Hb, Hm, Hc. reduce_run. rewrite Hans.
  rewrite bool_decide_eq_true_2 by exact Hyes.
  repeat case_scrutinee; cbn; eexists _, _; repeat split; reflexivity.
Qed.


(** One more pass of the loop. *)
Lemma main_loop_break (n : nat) (h : history) (es : list event) :
  loop_body w h = (Ok Break, es) -> main_loop w (S n) h = (Ok Terminated, es).
Proof.
  intros H. cbn [main_loop]. unfold bind. rewrite H. unfold ret.
  now rewrite app_nil_r.
Qed.

Lemma main_loop_continue (n : nat) (h : history) (es : list event) :
  loop_body w h = (Ok Continue, es) ->
  main_loop w (S n) h
  = (let '(r, es') := main_loop w n (h ++ es) in (r, es ++ es')).
Proof. intros H. cbn [main_loop]. unfold bind. now rewrite H. Qed.

Lemma main_loop_raise (n : nat) (h : history) (es : list event) (e : exn) :
  loop_body w h = (Raise e, es) -> main_loop w (S n) h = (Raise e, es).
Proof. intros H. cbn [main_loop]. unfold bind. now rewrite H. Qed.

(** After a pass that goes on, the router is back at [Idle]. *)
Lemma main_loop_idle (h : history) (es : list event) :
  loop_body w h = (Ok Continue, es) -> main_loop w 1 h = (Ok Idle, es).
Proof.
  intros H. rewrite (main_loop_continue 0 h es H). cbn [main_loop]. unfold ret.
  now rewrite app_nil_r.
Qed.

End Router.

Lemma affirmative_iff (answer : string) :
  Str.lower (Str.strip answer) ∈ affirmative <-> affirms answer.
Proof.
  unfold affirmative, affirms. rewrite elem_of_union, !elem_of_singleton.
  reflexivity.
Qed.

(** ** Properties of a pass of the router *)

Ltac pick_casing := vm_compute; repeat (first [left; reflexivity | right]).

(** C6: on "exit", "Exit", "EXIT" and every other casing of the word,
    the router prints the farewell once and leaves the loop; neither the
    translation step nor the executor is called. *)
Theorem exit_ends_session (w : World) (h : history) (line : string) (n : nat) :
  In line (letter_casings "exit") ->
  reader w h "> " = Ok line ->
  loop_body w h = (Ok Break, [EvPrompt "> "; EvPrint "Goodbye!"])
  /\ main_loop w (S n) h = (Ok Terminated, [EvPrompt "> "; EvPrint "Goodbye!"])
  /\ printed "Goodbye!" [EvPrompt "> "; EvPrint "Goodbye!"] = 1
  /\ translations [EvPrompt "> "; EvPrint "Goodbye!"] = 0
  /\ executions [EvPrompt "> "; EvPrint "Goodbye!"] = 0.
Proof.
  intros Hc Hr. apply casing_lower_exit in Hc.
  pose proof (loop_body_exit w h line Hr Hc) as Hb.
  repeat split; [exact Hb | now apply main_loop_break].
Qed.

Lemma exit_ends_session_witness :
  In "exit" (letter_casings "exit") /\ In "Exit" (letter_casings "exit")
  /\ In "EXIT" (letter_casings "exit")
  /\ main_loop (session bash_vars [Ok "EXIT"; Ok "dir"] suggests_ls child_ok) 3 []
     = (Ok Terminated, [EvPrompt "> "; EvPrint "Goodbye!"]).
Proof.
  split; [pick_casing | split; [pick_casing | split; [pick_casing|]]].
  apply (exit_ends_session
           (session bash_vars [Ok "EXIT"; Ok "dir"] suggests_ls child_ok)
           [] "EXIT" 2); [pick_casing | reflexivity].
Defined.

(** C7: a line that does not begin with '!' and is not "exit" in any
    letter case is handed to the executor once, as it is; the
    translation step is not called and the only prompt of the pass is
    the one that read the line. *)
Theorem direct_command_runs_once (w : World) (h : history) (line : string) :
  reader w h "> " = Ok line ->
  Str.startswith line "!" = false ->
  Str.lower line <> "exit" ->
  exists r tail,
    loop_body w h = (r, EvPrompt "> " :: EvRun line :: tail)
    /\ executions (EvPrompt "> " :: EvRun line :: tail) = 1
    /\ translations (EvPrompt "> " :: EvRun line :: tail) = 0
    /\ prompts (EvPrompt "> " :: EvRun line :: tail) = 1.
Proof.
  intros Hr Hb Hl.
  destruct (loop_body_direct w h line Hr Hl Hb) as (r & tail & H & Ht & He & Hp).
  exists r, tail. split; [exact H|].
  unfold executions, translations, prompts, count in *. cbn.
  now rewrite Ht, He, Hp.
Qed.

Lemma direct_command_runs_once_witness :
  exists r tail,
    loop_body (session bash_vars [Ok "dir"] suggests_ls child_failed) []
    = (r, EvPrompt "> " :: EvRun "dir" :: tail)
    /\ executions (EvPrompt "> " :: EvRun "dir" :: tail) = 1
    /\ translations (EvPrompt "> " :: EvRun "dir" :: tail) = 0
    /\ prompts (EvPrompt "> " :: EvRun "dir" :: tail) = 1.
Proof.
  apply (direct_command_runs_once
           (session bash_vars [Ok "dir"] suggests_ls child_failed) [] "dir");
    [reflexivity | reflexivity | discriminate].
Defined.









Lemma nonempty_length (s : string) : s <> "" -> 0 < String.length s.
Proof. destruct s; [congruence | simpl; lia]. Qed.

(** A line made of a casing of "exit" and surrounding white space is
    neither the exit word nor a translation request. *)
Lemma padded_exit_is_direct (before word after : string) :
  In word (letter_casings "exit") ->
  Str.all_space before = true -> Str.all_space after = true ->
  before <> "" \/ after <> "" ->
  Str.lower (before +:+ word +:+ after) <> "exit"
  /\ Str.startswith (before +:+ word +:+ after) "!" = false.
Proof.
  intros Hw Hb Ha Hpad. split.
  - intros Heq. apply (f_equal String.length) in Heq.
    rewrite lower_length, !append_length in Heq.
    apply casing_lower_exit, (f_equal String.length) in Hw.
    rewrite lower_length in Hw. simpl in Hw, Heq.
    destruct Hpad as [Hne | Hne]; apply nonempty_length in Hne; lia.
  - destruct (Str.startswith _ "!") eqn:E; [exfalso | reflexivity].
    unfold Str.startswith in E. apply prefix_iff in E as [rest E].
    destruct before as [|c before].
    + vm_compute in Hw.
      repeat (destruct Hw as [<- | Hw]; [push_append; discriminate|]).
      destruct Hw.
    + push_append. injection E as -> _. discriminate.
Qed.

(** C10: the exit test looks at the line as typed.  A casing of "exit"
    with white space before or after it is not the exit word and does
    not begin with '!': the router hands the whole line to the executor,
    and when the child has ended the pass goes on and the session is
    still open. *)
Theorem padded_exit_is_a_command
    (w : World) (h : history) (before word after : string) :
  In word (letter_casings "exit") ->
  Str.all_space before = true -> Str.all_space after = true ->
  before <> "" \/ after <> "" ->
  reader w h "> " = Ok (before +:+ word +:+ after) ->
  Str.lower (before +:+ word +:+ after) <> "exit"
  /\ (exists r tail,
        loop_body w h
        = (r, EvPrompt "> " :: EvRun (before +:+ word +:+ after) :: tail)
        /\ translations tail = 0 /\ executions tail = 0 /\ prompts tail = 0)
  /\ (forall res,
        shell_run w (h ++ [EvPrompt "> "]) (before +:+ word +:+ after) = Ok res ->
        loop_body w h
        = (Ok Continue,
           [EvPrompt "> "; EvRun (before +:+ word +:+ after); report res])
        /\ main_loop w 1 h
           = (Ok Idle,
              [EvPrompt "> "; EvRun (before +:+ word +:+ after); report res])).
Proof.
  intros Hw Hb Ha Hpad Hr.
  destruct (padded_exit_is_direct before word after Hw Hb Ha Hpad) as [Hl Hs].
  split; [exact Hl | split].
  - now apply loop_body_direct.
  - intros res Hrun.
    pose proof (loop_body_direct_completed w h _ res Hr Hl Hs Hrun) as H.
    split; [exact H | now apply main_loop_idle].
Qed.

Lemma padded_exit_is_a_command_witness :
  main_loop (session bash_vars [Ok " exit"] suggests_ls child_failed) 1 []
  = (Ok Idle, [EvPrompt "> "; EvRun " exit"; EvPrint "sh: 1: not found"]).
Proof.
  destruct (padded_exit_is_a_command
              (session bash_vars [Ok " exit"] suggests_ls child_failed)
              [] " " "exit" "")
    as (_ & _ & H);
    [pick_casing | reflexivity | reflexivity | left; discriminate | reflexivity |].
  apply (H (CompletedProcess 127 "" "sh: 1: not found")). reflexivity.
Defined.

(** C2: on a line that begins with '!' the router calls the translation
    step once.  When the translation has succeeded and a confirmation
    line is read, the executor is called once, after the translation,
    if and only if the line affirms; otherwise it is not called and the
    skip notice is printed. *)
Theorem translation_then_confirmation (w : World) (h : history) (line : string) :
  reader w h "> " = Ok line ->
  Str.startswith line "!" = true ->
  (exists r tail,
     loop_body w h
     = (r, EvPrompt "> " :: translation_request w (instruction_of line) :: tail)
     /\ translations
          (EvPrompt "> " :: translation_request w (instruction_of line) :: tail)
        = 1)
  /\ (forall cmd answer,
        translates w h line cmd ->
        reader w (confirmation_history w h line cmd) (confirmation_text cmd)
        = Ok answer ->
        exists r tail,
          loop_body w h
          = (r, [ EvPrompt "> "; translation_request w (instruction_of line);
                  suggestion_echo w cmd; EvPrompt (confirmation_text cmd) ]
                ++ tail)
          /\ (affirms answer ->
              exists rest, tail = EvRun cmd :: rest /\ executions rest = 0)
          /\ (~ affirms answer ->
              r = Ok Continue /\ tail = [EvPrint "Command execution skipped."])
          /\ (executions
                ([ EvPrompt "> "; translation_request w (instruction_of line);
                   suggestion_echo w cmd; EvPrompt (confirmation_text cmd) ]
                 ++ tail) = 1 <-> affirms answer)
          /\ (~ affirms answer ->
              executions
                ([ EvPrompt "> "; translation_request w (instruction_of line);
                   suggestion_echo w cmd; EvPrompt (confirmation_text cmd) ]
                 ++ tail) = 0)).
Proof.
  intros Hr Hb. split.
  - destruct (loop_body_translation w h line Hr Hb) as (r & tail & H & Ht).
    exists r, tail. split; [exact H|].
    unfold translations, count in *. cbn. now rewrite Ht.
  - intros cmd answer Ht Hans.
    destruct (decide (Str.lower (Str.strip answer) ∈ affirmative)) as [Hyes | Hno].
    + destruct (loop_body_confirmed w h line cmd answer Hr Hb Ht Hans Hyes)
        as (r & tail & H & _ & He & _).
      apply affirmative_iff in Hyes.
      exists r, (EvRun cmd :: tail). split; [exact H|].
      assert (Hone : executions
                ([ EvPrompt "> "; translation_request w (instruction_of line);
                   suggestion_echo w cmd; EvPrompt (confirmation_text cmd) ]
                 ++ EvRun cmd :: tail) = 1).
      { unfold executions, count in *. cbn. now rewrite He. }
      repeat split; try tauto.
      exists tail. split; [reflexivity | exact He].
    + pose proof (loop_body_declined w h line cmd answer Hr Hb Ht Hans Hno) as H.
      rewrite affirmative_iff in Hno.
      exists (Ok Continue), [EvPrint "Command execution skipped."].
      split; [exact H|].
      repeat split; try tauto. cbn. discriminate.
Qed.

Lemma translation_then_confirmation_witness :
  executions
    (snd (loop_body
            (session bash_vars [Ok "!list files here"; Ok "y"] suggests_ls child_ok)
            [])) = 1
  /\ executions
       (snd (loop_body
               (session bash_vars [Ok "!list files here"; Ok "no"] suggests_ls child_ok)
               [])) = 0.
Proof.
  split.
  - destruct (translation_then_confirmation
                (session bash_vars [Ok "!list files here"; Ok "y"] suggests_ls child_ok)
                [] "!list files here") as (_ & H); [reflexivity | reflexivity |].
    destruct (H "ls -la" "y") as (r & tail & Heq & _ & _ & Hiff & _).
    + exists (replies " ls -la "), " ls -la ", []. repeat split.
    + reflexivity.
    + rewrite Heq. apply Hiff. right. reflexivity.
  - destruct (translation_then_confirmation
                (session bash_vars [Ok "!list files here"; Ok "no"] suggests_ls child_ok)
                [] "!list files here") as (_ & H); [reflexivity | reflexivity |].
    destruct (H "ls -la" "no") as (r & tail & Heq & _ & _ & _ & Hzero).
    + exists (replies " ls -la "), " ls -la ", []. repeat split.
    + reflexivity.
    + rewrite Heq. apply Hzero. intros [E | E]; discriminate E.
Defined.

(** C8: the translation step sends the model two messages, the system
    prompt composed for the detected dialect and a user message; the
    user message the router passes is the text after the '!', trimmed.
    The completion is asked with a cap of 50 and the newline as the
    only stop string, and the step returns the text of the first choice,
    trimmed. *)
Theorem translation_request_shape (w : World) (h : history) (line : string) :
  reader w h "> " = Ok line ->
  Str.startswith line "!" = true ->
  (exists r tail,
     loop_body w h
     = (r, EvPrompt "> "
           :: EvChatCompletion
                [ Message "system" (get_system_prompt (detect_shell (environ w)));
                  Message "user" (Str.strip (Str.slice_from_1 line)) ]
                50 [Str.newline]
           :: tail)
     /\ translations tail = 0)
  /\ (forall h' command,
        exists r tail,
          call_llm w command h'
          = (r, EvChatCompletion
                  [ Message "system" (get_system_prompt (detect_shell (environ w)));
                    Message "user" command ]
                  50 [Str.newline]
                :: tail)
          /\ translations tail = 0)
  /\ (forall h' command response text rest,
        model w h'
          [ Message "system" (get_system_prompt (detect_shell (environ w)));
            Message "user" command ] 50 [Str.newline] = Ok response ->
        choices response = Choice (Some text) :: rest ->
        fst (call_llm w command h') = Ok (Str.strip text)).
Proof.
  intros Hr Hb. split; [|split].
  - exact (loop_body_translation w h line Hr Hb).
  - intros h' command.
    destruct (call_llm_requests_once w h' command) as (r & tail & H & Ht & _).
    exists r, tail. split; [exact H | exact Ht].
  - intros h' command response text rest Hm Hc.
    now rewrite (call_llm_completed w h' command response text rest Hm Hc).
Qed.

Lemma translation_request_shape_witness :
  fst (call_llm
         (session bash_vars [Ok "!  list files here "; Ok "y"] suggests_ls child_ok)
         "list files here" [EvPrompt "> "]) = Ok "ls -la"
  /\ exists r tail,
       loop_body
         (session bash_vars [Ok "!  list files here "; Ok "y"] suggests_ls child_ok)
         []
       = (r, EvPrompt "> "
             :: EvChatCompletion
                  [ Message "system" (get_system_prompt "bash");
                    Message "user" "list files here" ]
                  50 [Str.newline]
             :: tail)
       /\ translations tail = 0.
Proof.
  destruct (translation_request_shape
              (session bash_vars [Ok "!  list files here "; Ok "y"] suggests_ls child_ok)
              [] "!  list files here ") as (Hloop & _ & Hret);
    [reflexivity | reflexivity |].
  split.
  - apply (Hret [EvPrompt "> "] "list files here" (replies " ls -la ") " ls -la " []);
      reflexivity.
  - exact Hloop.
Defined.

Lemma loop_body_translation_fails
    (w : World) (h : history) (line : string) (e : exn) :
  reader w h "> " = Ok line -> Str.startswith line "!" = true ->
  translation_fails w h line e ->
  loop_body w h
  = match e with
    | KeyboardInterrupt =>
        (Ok Continue,
         [ EvPrompt "> "; translation_request w (instruction_of line);
           EvPrint (Str.newline +:+ "Operation canceled.") ])
    | EOFError =>
        (Ok Break,
         [ EvPrompt "> "; translation_request w (instruction_of line);
           EvPrint (Str.newline +:+ "Exiting.") ])
    | _ => (Raise e, [EvPrompt "> "; translation_request w (instruction_of line)])
    end.
Proof.
  intros Hr Hb Hf. pose proof (startswith_bang_not_exit _ Hb) as Hne.
  unfold translation_fails in Hf. unfold_names. unfold_router.
  rewrite Hr, Hne, Hb.
  destruct Hf as [Hm | [(response & Hm & Hc & ->) | (response & rest & Hm & Hc & ->)]];
    rewrite Hm; try rewrite Hc; try reflexivity.
  destruct e; reflexivity.
Qed.

Lemma loop_body_asks_confirmation
    (w : World) (h : history) (line cmd : string) :
  reader w h "> " = Ok line -> Str.startswith line "!" = true ->
  translates w h line cmd ->
  exists r tail,
    loop_body w h
    = (r, [ EvPrompt "> "; translation_request w (instruction_of line);
            suggestion_echo w cmd; EvPrompt (confirmation_text cmd) ] ++ tail).
Proof.
  intros Hr Hb (response & text & rest & Hm & Hc & ->).
  pose proof (startswith_bang_not_exit _ Hb) as Hne.
  unfold_names. unfold_router.
  rewrite Hr, Hne, Hb, Hm, Hc. reduce_run.
  repeat case_scrutinee; cbn; eexists _, _; reflexivity.
Qed.

(** C1, as stated, fails.  A model call that raises, or a completion
    without choices, ends the session with the exception: nothing is
    displayed and the loop does not go on.  A completion whose text is
    empty is not an error at all: the empty command is echoed, put to
    confirmation and, on "y", handed to the executor. *)
Lemma translation_failure_counterexample :
  main_loop
    (session bash_vars [Ok "!list files here"; Ok "y"; Ok "dir"] model_error child_ok)
    3 []
  = (Raise (Exception "ValueError"),
     [ EvPrompt "> ";
       EvChatCompletion
         [ Message "system" (get_system_prompt "bash");
           Message "user" "list files here" ] 50 [Str.newline] ])
  /\ main_loop
       (session bash_vars [Ok "!list files here"; Ok "y"; Ok "dir"] no_choices child_ok)
       3 []
     = (Raise IndexError,
        [ EvPrompt "> ";
          EvChatCompletion
            [ Message "system" (get_system_prompt "bash");
              Message "user" "list files here" ] 50 [Str.newline] ])
  /\ main_loop
       (session bash_vars [Ok "!list files here"; Ok "y"] empty_text child_ok)
       1 []
     = (Ok Idle,
        [ EvPrompt "> ";
          EvChatCompletion
            [ Message "system" (get_system_prompt "bash");
              Message "user" "list files here" ] 50 [Str.newline];
          EvPrint "LLM suggested command for 'bash': ";
          EvPrompt (confirmation_text "");
          EvRun "";
          EvPrint "console.py" ]).
Proof. repeat split. Qed.

(** C1, amended: when the model call raises, or its completion has no
    choice or no text, the exception leaves the translation step with
    no command executed and no confirmation requested.  The router
    catches it only when it is [KeyboardInterrupt] (a cancellation
    notice, the loop goes on) or [EOFError] (an exit notice, the loop
    ends); any other exception ends the session with nothing displayed.
    A completion whose text is empty after trimming is no failure: the
    empty command is echoed and put to confirmation. *)
Theorem translation_failure_propagates (w : World) (h : history) (line : string) :
  reader w h "> " = Ok line ->
  Str.startswith line "!" = true ->
  (forall e,
     translation_fails w h line e ->
     (e = KeyboardInterrupt ->
      loop_body w h
      = (Ok Continue,
         [ EvPrompt "> "; translation_request w (instruction_of line);
           EvPrint (Str.newline +:+ "Operation canceled.") ]))
     /\ (e = EOFError ->
         loop_body w h
         = (Ok Break,
            [ EvPrompt "> "; translation_request w (instruction_of line);
              EvPrint (Str.newline +:+ "Exiting.") ]))
     /\ (e <> KeyboardInterrupt -> e <> EOFError ->
         loop_body w h
         = (Raise e, [EvPrompt "> "; translation_request w (instruction_of line)])
         /\ forall n,
              main_loop w (S n) h
              = (Raise e,
                 [EvPrompt "> "; translation_request w (instruction_of line)]))
     /\ exists r es,
          loop_body w h = (r, es) /\ executions es = 0 /\ prompts es = 1)
  /\ (translates w h line "" ->
      exists r tail,
        loop_body w h
        = (r, [ EvPrompt "> "; translation_request w (instruction_of line);
                suggestion_echo w ""; EvPrompt (confirmation_text "") ] ++ tail)).
Proof.
  intros Hr Hb. split.
  - intros e Hf. pose proof (loop_body_translation_fails w h line e Hr Hb Hf) as H.
    split; [|split; [|split]].
    + intros ->. exact H.
    + intros ->. exact H.
    + intros Hk He.
      assert (H' : loop_body w h
                   = (Raise e, [EvPrompt "> "; translation_request w (instruction_of line)]))
        by (destruct e; congruence).
      split; [exact H' | intros n; now apply main_loop_raise].
    + rewrite H. destruct e; eexists _, _; repeat split.
  - now apply loop_body_asks_confirmation.
Qed.

Lemma translation_failure_propagates_witness :
  loop_body
    (session bash_vars [Ok "!list files here"; Ok "y"; Ok "dir"] model_error child_ok) []
  = (Raise (Exception "ValueError"),
     [ EvPrompt "> ";
       translation_request
         (session bash_vars [Ok "!list files here"; Ok "y"; Ok "dir"] model_error child_ok)
         (instruction_of "!list files here") ])
  /\ exists r tail,
       loop_body
         (session bash_vars [Ok "!list files here"; Ok "y"] empty_text child_ok) []
       = (r, [ EvPrompt "> ";
               translation_request
                 (session bash_vars [Ok "!list files here"; Ok "y"] empty_text child_ok)
                 (instruction_of "!list files here");
               suggestion_echo
                 (session bash_vars [Ok "!list files here"; Ok "y"] empty_text child_ok)
                 "";
               EvPrompt (confirmation_text "") ] ++ tail).
Proof.
  split.
  - destruct (translation_failure_propagates
                (session bash_vars [Ok "!list files here"; Ok "y"; Ok "dir"] model_error child_ok)
                [] "!list files here") as (H & _); [reflexivity | reflexivity |].
    destruct (H (Exception "ValueError")) as (_ & _ & Hcrash & _).
    + left. reflexivity.
    + apply Hcrash; discriminate.
  - destruct (translation_failure_propagates
                (session bash_vars [Ok "!list files here"; Ok "y"] empty_text child_ok)
                [] "!list files here") as (_ & H); [reflexivity | reflexivity |].
    apply H. exists (replies ""), "", []. repeat split.
Defined.

(** ** A whole session *)

(** A translated command that is confirmed, a typed command, a padded
    "exit" that is run as a command, and the exit word. *)
Example main_session :
  main (session bash_vars
          [Ok "!list files here"; Ok " Yes "; Ok "dir"; Ok " exit"; Ok "Exit"]
          suggests_ls child_ok) 10 []
  = (Ok Terminated,
     [ EvLoadModel "TheBloke/LLaMA-2-7B-chat-GGUF" "llama-2-7b-chat.ggmlv3.q6_K.bin";
       EvPrint "Welcome to the Custom Command Interface! Type your commands below.";
       EvPrint ("Use '!' to invoke the LLM. Type 'exit' to quit." +:+ Str.newline);
       EvPrompt "> ";
       EvChatCompletion
         [ Message "system" (get_system_prompt "bash");
           Message "user" "list files here" ] 50 [Str.newline];
       EvPrint "LLM suggested command for 'bash': ls -la";
       EvPrompt (confirmation_text "ls -la");
       EvRun "ls -la"; EvPrint "console.py";
       EvPrompt "> "; EvRun "dir"; EvPrint "console.py";
       EvPrompt "> "; EvRun " exit"; EvPrint "console.py";
       EvPrompt "> "; EvPrint "Goodbye!" ]).
Proof. vm_compute. reflexivity. Qed.

(** ** More on strings: trimming and letter case *)

Lemma lstrip_space (a : string) : Str.all_space a = true -> Str.lstrip a = "".
Proof.
  induction a as [|c a IH]; [reflexivity|].
  cbn [Str.all_space Str.lstrip]. intros [Hc Ha]%andb_true_iff.
  rewrite Hc. auto.
Qed.

Lemma lstrip_space_app (a s : string) :
  Str.all_space a = true -> Str.lstrip (a +:+ s) = Str.lstrip s.
Proof.
  induction a as [|c a IH]; push_append; [reflexivity|].
  cbn [Str.all_space Str.lstrip]. intros [Hc Ha]%andb_true_iff.
  rewrite Hc. auto.
Qed.

Lemma rstrip_space (a : string) : Str.all_space a = true -> Str.rstrip a = "".
Proof.
  induction a as [|c a IH]; [reflexivity|].
  cbn [Str.all_space Str.rstrip]. intros [Hc Ha]%andb_true_iff.
  now rewrite (IH Ha), Hc.
Qed.

Lemma rstrip_app_space (s b : string) :
  Str.all_space b = true -> Str.rstrip (s +:+ b) = Str.rstrip s.
Proof.
  intros Hb. induction s as [|c s IH]; push_append.
  - now apply rstrip_space.
  - cbn [Str.rstrip]. now rewrite IH.
Qed.

Lemma lstrip_decompose (s : string) :
  exists a, s = a +:+ Str.lstrip s /\ Str.all_space a = true.
Proof.
  induction s as [|c s (a & Hs & Ha)]; [now exists ""|].
  cbn [Str.lstrip]. destruct (Str.isspace c) eqn:Hc.
  - exists (String c a). push_append. cbn [Str.all_space].
    rewrite Hc, Ha. split; [now f_equal | reflexivity].
  - now exists "".
Qed.

Lemma rstrip_decompose (s : string) :
  exists b, s = Str.rstrip s +:+ b /\ Str.all_space b = true.
Proof.
  induction s as [|c s (b & Hs & Hb)]; [now exists ""|].
  cbn [Str.rstrip]. destruct (Str.rstrip s) as [|c' r] eqn:Hr.
  - push_append. subst s. destruct (Str.isspace c) eqn:Hc.
    + exists (String c b). cbn [Str.all_space]. now rewrite Hc, Hb.
    + exists b. now push_append.
  - exists b. push_append. split; [now f_equal | exact Hb].
Qed.

(** A string is its trimmed part between two runs of white space. *)
Lemma strip_decompose (s : string) :
  exists a b,
    s = a +:+ Str.strip s +:+ b
    /\ Str.all_space a = true /\ Str.all_space b = true.
Proof.
  destruct (lstrip_decompose s) as (a & Hs & Ha).
  destruct (rstrip_decompose (Str.lstrip s)) as (b & Hl & Hb).
  exists a, b. unfold Str.strip. now rewrite <- Hl.
Qed.

Lemma lstrip_head (s : string) (c : ascii) (r : string) :
  Str.lstrip s = String c r -> Str.isspace c = false.
Proof.
  induction s as [|x s IH]; [discriminate|].
  cbn [Str.lstrip]. destruct (Str.isspace x) eqn:Hx; [exact IH|].
  now intros [= <- _].
Qed.

Lemma rstrip_idempotent (s : string) : Str.rstrip (Str.rstrip s) = Str.rstrip s.
Proof.
  induction s as [|c s IH]; [reflexivity|].
  cbn [Str.rstrip]. destruct (Str.rstrip s) as [|c' r] eqn:Hr.
  - destruct (Str.isspace c) eqn:Hc; [reflexivity|].
    cbn [Str.rstrip]. now rewrite Hc.
  - cbn [Str.rstrip] in *. now rewrite IH.
Qed.

Lemma rstrip_keeps_head (c : ascii) (r : string) :
  Str.isspace c = false -> exists r', Str.rstrip (String c r) = String c r'.
Proof.
  intros Hc. cbn [Str.rstrip]. destruct (Str.rstrip r); [rewrite Hc|]; eauto.
Qed.

(** Nothing is left to trim at either end of a trimmed string. *)
Lemma strip_trimmed (s : string) :
  Str.lstrip (Str.strip s) = Str.strip s /\ Str.rstrip (Str.strip s) = Str.strip s.
Proof.
  unfold Str.strip. split; [|apply rstrip_idempotent].
  destruct (Str.lstrip s) as [|c r] eqn:Hl; [reflexivity|].
  apply lstrip_head in Hl.
  destruct (rstrip_keeps_head c r Hl) as (r' & ->).
  cbn [Str.lstrip]. now rewrite Hl.
Qed.

Lemma strip_padded (before after : string) (c : ascii) (r : string) :
  Str.all_space before = true -> Str.all_space after = true ->
  Str.isspace c = false -> Str.rstrip (String c r) = String c r ->
  Str.strip (before +:+ String c r +:+ after) = String c r.
Proof.
  intros Hb Ha Hc Hr. unfold Str.strip.
  rewrite (lstrip_space_app _ _ Hb). push_append. cbn [Str.lstrip]. rewrite Hc.
  rewrite <- append_cons, (rstrip_app_space _ _ Ha). exact Hr.
Qed.

(** The code points that [lower_char] sends to one of the letters of
    "yes" and "exit" used below are the letter and its capital. *)
Lemma lower_char_letter (c x : ascii) :
  In x ["y"; "e"; "s"]%char ->
  Str.lower_char c = x -> c = x \/ c = upper_char x.
Proof.
  intros Hx.
  repeat (destruct Hx as [<- | Hx];
    [destruct c as [[] [] [] [] [] [] [] []]; vm_compute;
       intros H; first [discriminate H | now left | now right]|]).
  destruct Hx.
Qed.

Lemma lower_yes (word : string) :
  Str.lower word = "yes" -> In word (letter_casings "yes").
Proof.
  destruct word as [|c1 [|c2 [|c3 [|c4 r]]]]; try discriminate.
  cbn [Str.lower]. intros [= H1 H2 H3].
  apply lower_char_letter in H1; [|vm_compute; tauto].
  apply lower_char_letter in H2; [|vm_compute; tauto].
  apply lower_char_letter in H3; [|vm_compute; tauto].
  destruct H1 as [-> | ->], H2 as [-> | ->], H3 as [-> | ->];
    vm_compute; tauto.
Qed.

Lemma lower_y (word : string) :
  Str.lower word = "y" -> In word (letter_casings "y").
Proof.
  destruct word as [|c1 [|c2 r]]; try discriminate.
  cbn [Str.lower]. intros [= H1].
  apply lower_char_letter in H1; [|vm_compute; tauto].
  destruct H1 as [-> | ->]; vm_compute; tauto.
Qed.

Lemma casing_trimmed (word : string) :
  In word (letter_casings "yes") \/ In word (letter_casings "y") ->
  (Str.lower word = "yes" \/ Str.lower word = "y")
  /\ exists c r, word = String c r /\ Str.isspace c = false
                 /\ Str.rstrip (String c r) = String c r.
Proof.
  intros [H | H]; vm_compute in H;
    repeat (destruct H as [<- | H];
            [split; [first [now left | now right] | eexists _, _; repeat split]|]);
    destruct H.
Qed.

Lemma append_cancel_r (a b c : string) : a +:+ c = b +:+ c -> a = b.
Proof.
  revert b. induction a as [|x a IH]; intros [|y b] H; push_append.
  - reflexivity.
  - apply (f_equal String.length) in H. cbn [String.length] in H.
    rewrite append_length in H. lia.
  - apply (f_equal String.length) in H. cbn [String.length] in H.
    rewrite append_length in H. lia.
  - injection H as -> H. f_equal. now apply IH.
Qed.

Lemma append_cancel_l (a b c : string) : c +:+ a = c +:+ b -> a = b.
Proof.
  induction c as [|x c IH]; push_append; [auto|]. intros [= H]. auto.
Qed.

Lemma space_is_no_letter (c : ascii) :
  Str.isspace c = true -> Str.lower_char c <> "e"%char /\ c <> "!"%char.
Proof.
  intros Hc. split.
  - intros H. apply lower_char_letter in H; [|vm_compute; tauto].
    destruct H as [-> | ->]; discriminate Hc.
  - intros ->. discriminate Hc.
Qed.

(** A line of white space only, the empty line included, is neither the
    exit word nor a translation request. *)
Lemma blank_line_is_direct (line : string) :
  Str.all_space line = true ->
  Str.lower line <> "exit" /\ Str.startswith line "!" = false.
Proof.
  destruct line as [|c r]; [split; [discriminate | reflexivity]|].
  cbn [Str.all_space]. intros [Hc _]%andb_true_iff.
  destruct (space_is_no_letter c Hc) as [He Hb]. split.
  - cbn [Str.lower]. congruence.
  - destruct (Str.startswith _ _) eqn:E; [|reflexivity].
    unfold Str.startswith in E. apply prefix_iff in E as [rest E].
    push_append. congruence.
Qed.

(** ** More on the shell detector and the prompt composer *)

(** X1: for every environment the detector answers one of the four
    dialect names. *)
Theorem detect_shell_is_a_dialect (environ : environment) :
  In (detect_shell environ) ["bash"; "powershell"; "cmd"; "unknown"].
Proof. apply list_elem_of_In, detect_shell_dialect. Qed.

(** X2: what each answer of the detector says about the string it
    classified, the value of SHELL when that is set and not empty and
    the value of ComSpec otherwise: bash only when the string contains
    "bash" as written; powershell only when it contains no "bash" and
    some casing of "powershell"; cmd only when it contains neither and
    some casing of "cmd"; unknown only when there is no string or it
    contains none of the three. *)
Theorem detect_shell_answer_means (environ : environment) :
  let shell := py_or (environ !! "SHELL") (environ !! "ComSpec") in
  (detect_shell environ = "bash" ->
   exists s, shell = Some s /\ occurs "bash" s)
  /\ (detect_shell environ = "powershell" ->
      exists s, shell = Some s /\ ~ occurs "bash" s
                /\ occurs_any_case "powershell" s)
  /\ (detect_shell environ = "cmd" ->
      exists s, shell = Some s /\ ~ occurs "bash" s
                /\ ~ occurs_any_case "powershell" s /\ occurs_any_case "cmd" s)
  /\ (detect_shell environ = "unknown" ->
      shell = None
      \/ exists s, shell = Some s /\ ~ occurs "bash" s
                   /\ ~ occurs_any_case "powershell" s
                   /\ ~ occurs_any_case "cmd" s).
Proof.
  unfold detect_shell. cbv zeta.
  destruct (py_or _ _) as [s|];
    [|repeat split; intros H; try discriminate H; now left].
  destruct (Str.contains "bash" s) eqn:Hb;
    [apply contains_iff in Hb | apply contains_false_iff in Hb];
    [repeat split; intros H; try discriminate H; eauto|].
  destruct (Str.contains "powershell" (Str.lower s)) eqn:Hp;
    [apply contains_lower_iff in Hp | apply contains_lower_false_iff in Hp];
    [repeat split; intros H; try discriminate H; eauto|].
  destruct (Str.contains "cmd" (Str.lower s)) eqn:Hc;
    [apply contains_lower_iff in Hc | apply contains_lower_false_iff in Hc];
    repeat split; intros H; try discriminate H; eauto 10.
Qed.

Lemma detect_shell_answer_means_witness :
  exists s,
    py_or (env_comspec "C:\WINDOWS\system32\CMD.EXE" !! "SHELL")
          (env_comspec "C:\WINDOWS\system32\CMD.EXE" !! "ComSpec") = Some s
    /\ ~ occurs "bash" s /\ ~ occurs_any_case "powershell" s
    /\ occurs_any_case "cmd" s.
Proof.
  destruct (detect_shell_answer_means (env_comspec "C:\WINDOWS\system32\CMD.EXE"))
    as (_ & _ & H & _).
  apply H. by_computation.
Defined.

(** X3: when SHELL is set and not empty, ComSpec plays no part: setting
    it, changing it or removing it leaves the answer as it is, and the
    answer is the one for SHELL alone. *)
Theorem detect_shell_ignores_fallback
    (environ : environment) (s value : string) :
  environ !! "SHELL" = Some s -> s <> "" ->
  detect_shell (<["ComSpec" := value]> environ) = detect_shell environ
  /\ detect_shell (delete "ComSpec" environ) = detect_shell environ
  /\ detect_shell environ = detect_shell {[ "SHELL" := s ]}.
Proof.
  intros Hs Hne.
  assert (Ht : Str.truthy s = true) by (destruct s; [congruence | reflexivity]).
  assert (H1 : (<["ComSpec" := value]> environ) !! "SHELL" = Some s)
    by (rewrite lookup_insert_ne; [exact Hs | discriminate]).
  assert (H2 : delete "ComSpec" environ !! "SHELL" = Some s)
    by (rewrite lookup_delete_ne; [exact Hs | discriminate]).
  assert (H3 : ({[ "SHELL" := s ]} : environment) !! "SHELL" = Some s)
    by apply lookup_singleton_eq.
  unfold detect_shell.
  now rewrite (py_or_primary _ s Hs Ht), (py_or_primary _ s H1 Ht),
    (py_or_primary _ s H2 Ht), (py_or_primary _ s H3 Ht).
Qed.

Lemma detect_shell_ignores_fallback_witness :
  detect_shell (<["ComSpec" := "C:\WINDOWS\system32\cmd.exe"]> bash_vars)
  = detect_shell bash_vars.
Proof.
  apply (detect_shell_ignores_fallback bash_vars "/bin/bash"
           "C:\WINDOWS\system32\cmd.exe"); [by_computation | discriminate].
Defined.

(** X4: a SHELL variable set to the empty string counts as absent. *)
Theorem detect_shell_empty_primary (environ : environment) :
  detect_shell (<["SHELL" := ""]> environ) = detect_shell (delete "SHELL" environ).
Proof.
  unfold detect_shell.
  rewrite lookup_insert_eq, lookup_delete_eq.
  rewrite lookup_insert_ne, lookup_delete_ne by discriminate. reflexivity.
Qed.

(** X5: the detector reads SHELL and ComSpec only: setting or removing
    a variable whose name is neither of the two, in whatever letter
    case it is written, does not change its answer. *)
Theorem detect_shell_other_variables
    (environ : environment) (name value : string) :
  Str.lower name <> "shell" -> Str.lower name <> "comspec" ->
  detect_shell (<[name := value]> environ) = detect_shell environ
  /\ detect_shell (delete name environ) = detect_shell environ.
Proof.
  intros H1 H2.
  assert (name <> "SHELL") by (intros ->; now apply H1).
  assert (name <> "ComSpec") by (intros ->; now apply H2).
  unfold detect_shell.
  now rewrite !lookup_insert_ne, !lookup_delete_ne by congruence.
Qed.

Lemma detect_shell_other_variables_witness :
  detect_shell env_bash_in_a_terminal = detect_shell bash_vars.
Proof.
  apply (detect_shell_other_variables bash_vars "TERM" "xterm-256color");
    discriminate.
Defined.

(** X6: two shell names with the same system prompt are the same name:
    the prompt tells the model which dialect is meant. *)
Theorem system_prompt_injective (a b : string) :
  get_system_prompt a = get_system_prompt b -> a = b.
Proof.
  unfold get_system_prompt. intros H.
  apply append_cancel_l in H. now apply append_cancel_r in H.
Qed.

Lemma system_prompt_injective_witness :
  detect_shell bash_vars = "bash".
Proof.
  apply (system_prompt_injective (detect_shell bash_vars) "bash"). reflexivity.
Defined.

(** ** More on the executor and the translation step *)



(** X8: the executor catches [CalledProcessError] only.  Any other
    exception of [subprocess.run] leaves it as it came, after the run
    and with nothing printed. *)
Theorem executor_passes_on_other_exceptions
    (w : World) (h : history) (command : string) (e : exn) :
  shell_run w h command = Raise e ->
  (forall rc err, e <> CalledProcessError rc err) ->
  execute_command w command h = (Raise e, [EvRun command]).
Proof.
  intros Hrun Hne. unfold_router. rewrite Hrun.
  destruct e as [| | rc err | | |]; try reflexivity. now destruct (Hne rc err).
Qed.

Lemma executor_passes_on_other_exceptions_witness :
  execute_command (session bash_vars [Ok "dir"] suggests_ls child_not_started)
    "dir" []
  = (Raise (Exception "ValueError"), [EvRun "dir"]).
Proof.
  apply (executor_passes_on_other_exceptions
           (session bash_vars [Ok "dir"] suggests_ls child_not_started)
           [] "dir" (Exception "ValueError")); [reflexivity | discriminate].
Defined.

(** X9: the command the translation step returns, and the instruction
    the router sends to the model for a line, have nothing left to trim
    at either end. *)
Theorem translation_texts_are_trimmed
    (w : World) (h : history) (command c line : string) :
  (fst (call_llm w command h) = Ok c -> Str.lstrip c = c /\ Str.rstrip c = c)
  /\ Str.lstrip (instruction_of line) = instruction_of line
  /\ Str.rstrip (instruction_of line) = instruction_of line.
Proof.
  split; [|apply strip_trimmed].
  unfold_router. repeat case_scrutinee; cbn [fst]; intros [= <-].
  apply strip_trimmed.
Qed.

Lemma translation_texts_are_trimmed_witness :
  Str.lstrip "ls -la" = "ls -la" /\ Str.rstrip "ls -la" = "ls -la".
Proof.
  apply (translation_texts_are_trimmed
           (session bash_vars [Ok "!list files here"] suggests_ls child_ok)
           [EvPrompt "> "] "list files here" "ls -la" "!list files here").
  reflexivity.
Defined.

(** ** More on a pass of the router *)

(** X10: a line of white space only, the empty line included, is not
    skipped: the router hands it to the executor as it is. *)
Theorem blank_line_is_run (w : World) (h : history) (line : string) :
  Str.all_space line = true ->
  reader w h "> " = Ok line ->
  exists r tail,
    loop_body w h = (r, EvPrompt "> " :: EvRun line :: tail)
    /\ executions tail = 0.
Proof.
  intros Hs Hr. destruct (blank_line_is_direct line Hs) as [Hl Hb].
  destruct (loop_body_direct w h line Hr Hl Hb) as (r & tail & H & _ & He & _).
  eauto.
Qed.

Lemma blank_line_is_run_witness :
  exists r tail,
    loop_body (session bash_vars [Ok ""] suggests_ls child_ok) []
    = (r, EvPrompt "> " :: EvRun "" :: tail)
    /\ executions tail = 0.
Proof.
  apply (blank_line_is_run (session bash_vars [Ok ""] suggests_ls child_ok) [] "");
    reflexivity.
Defined.

(** X11: a '!' followed by nothing but white space is still a
    translation request: the model is asked with an empty user message. *)
Theorem bare_trigger_asks_the_model (w : World) (h : history) (pad : string) :
  Str.all_space pad = true ->
  reader w h "> " = Ok ("!" +:+ pad) ->
  exists r tail,
    loop_body w h
    = (r, EvPrompt "> "
          :: EvChatCompletion
               [ Message "system" (get_system_prompt (detect_shell (environ w)));
                 Message "user" "" ] 50 [Str.newline]
          :: tail).
Proof.
  intros Hs Hr.
  assert (Hb : Str.startswith ("!" +:+ pad) "!" = true)
    by (apply prefix_iff; now exists pad).
  destruct (loop_body_translation w h _ Hr Hb) as (r & tail & H & _).
  exists r, tail. rewrite H. unfold translation_request, instruction_of.
  push_append. cbn [Str.slice_from_1]. unfold Str.strip.
  now rewrite (lstrip_space pad Hs).
Qed.

Lemma bare_trigger_asks_the_model_witness :
  exists r tail,
    loop_body (session bash_vars [Ok "! "; Ok "n"] suggests_ls child_ok) []
    = (r, EvPrompt "> "
          :: EvChatCompletion
               [ Message "system" (get_system_prompt "bash");
                 Message "user" "" ] 50 [Str.newline]
          :: tail).
Proof.
  apply (bare_trigger_asks_the_model
           (session bash_vars [Ok "! "; Ok "n"] suggests_ls child_ok) [] " ");
    reflexivity.
Defined.

(** X12: the answers the router takes as a yes are exactly the spellings
    of "yes" and "y" in any mix of small and capital letters, with any
    white space before and after. *)
Theorem affirmative_iff_padded_casing (answer : string) :
  Str.lower (Str.strip answer) ∈ affirmative
  <-> exists before word after,
        answer = before +:+ word +:+ after
        /\ Str.all_space before = true /\ Str.all_space after = true
        /\ (In word (letter_casings "yes") \/ In word (letter_casings "y")).
Proof.
  rewrite affirmative_iff. split.
  - intros H. destruct (strip_decompose answer) as (a & b & Hs & Ha & Hb).
    exists a, (Str.strip answer), b. repeat split; try assumption.
    destruct H as [H | H]; [left; now apply lower_yes | right; now apply lower_y].
  - intros (before & word & after & -> & Hb & Ha & Hw).
    destruct (casing_trimmed word Hw) as (Hl & c & r & -> & Hc & Hr).
    unfold affirms. now rewrite (strip_padded before after c r Hb Ha Hc Hr).
Qed.

Lemma affirmative_iff_padded_casing_witness :
  Str.lower (Str.strip "  YeS ") ∈ affirmative.
Proof.
  apply (affirmative_iff_padded_casing "  YeS ").
  exists "  ", "YeS", " ".
  split; [reflexivity | split; [reflexivity | split; [reflexivity|]]].
  left. pick_casing.
Defined.

(** X13: an interrupt while the router waits for a line prints the
    cancellation notice and the loop goes on with the next pass. *)
Theorem interrupt_at_prompt_continues (w : World) (h : history) :
  reader w h "> " = Raise KeyboardInterrupt ->
  loop_body w h = (Ok Continue, [EvPrompt "> "; cancel_notice])
  /\ forall n,
       main_loop w (S n) h
       = (let '(r, es) := main_loop w n (h ++ [EvPrompt "> "; cancel_notice]) in
          (r, [EvPrompt "> "; cancel_notice] ++ es)).
Proof.
  intros Hr.
  assert (H : loop_body w h = (Ok Continue, [EvPrompt "> "; cancel_notice])).
  { unfold cancel_notice. unfold_router. now rewrite Hr. }
  split; [exact H | intros n; now apply main_loop_continue].
Qed.

Lemma interrupt_at_prompt_continues_witness :
  main_loop
    (session bash_vars [Raise KeyboardInterrupt; Ok "exit"] suggests_ls child_ok)
    2 []
  = (Ok Terminated,
     [EvPrompt "> "; cancel_notice; EvPrompt "> "; EvPrint "Goodbye!"]).
Proof.
  destruct (interrupt_at_prompt_continues
              (session bash_vars [Raise KeyboardInterrupt; Ok "exit"]
                 suggests_ls child_ok) []) as (_ & H); [reflexivity|].
  rewrite (H 1). reflexivity.
Defined.

(** X14: the end of the input while the router waits for a line prints
    the exit notice and ends the session in the regular way. *)
Theorem end_of_input_terminates (w : World) (h : history) (n : nat) :
  reader w h "> " = Raise EOFError ->
  loop_body w h = (Ok Break, [EvPrompt "> "; exit_notice])
  /\ main_loop w (S n) h = (Ok Terminated, [EvPrompt "> "; exit_notice]).
Proof.
  intros Hr.
  assert (H : loop_body w h = (Ok Break, [EvPrompt "> "; exit_notice])).
  { unfold exit_notice. unfold_router. now rewrite Hr. }
  split; [exact H | now apply main_loop_break].
Qed.

Lemma end_of_input_terminates_witness :
  main_loop (session bash_vars [] suggests_ls child_ok) 4 []
  = (Ok Terminated, [EvPrompt "> "; exit_notice]).
Proof.
  apply (end_of_input_terminates (session bash_vars [] suggests_ls child_ok) [] 3).
  reflexivity.
Defined.

(** X15: an interrupt while a typed command runs is caught by the
    router: the cancellation notice is printed and the router is back at
    [Idle]. *)
Theorem interrupted_command_is_cancelled (w : World) (h : history) (line : string) :
  reader w h "> " = Ok line ->
  Str.lower line <> "exit" -> Str.startswith line "!" = false ->
  shell_run w (h ++ [EvPrompt "> "]) line = Raise KeyboardInterrupt ->
  loop_body w h = (Ok Continue, [EvPrompt "> "; EvRun line; cancel_notice])
  /\ main_loop w 1 h = (Ok Idle, [EvPrompt "> "; EvRun line; cancel_notice]).
Proof.
  intros Hr Hl Hb Hrun. apply String.eqb_neq in Hl.
  assert (H : loop_body w h
              = (Ok Continue, [EvPrompt "> "; EvRun line; cancel_notice])).
  { unfold cancel_notice. unfold_router. now rewrite Hr, Hl, Hb, Hrun. }
  split; [exact H | now apply main_loop_idle].
Qed.

Lemma interrupted_command_is_cancelled_witness :
  main_loop (session bash_vars [Ok "sleep 60"] suggests_ls child_interrupted) 1 []
  = (Ok Idle, [EvPrompt "> "; EvRun "sleep 60"; cancel_notice]).
Proof.
  apply (interrupted_command_is_cancelled
           (session bash_vars [Ok "sleep 60"] suggests_ls child_interrupted)
           [] "sleep 60"); [reflexivity | discriminate | reflexivity | reflexivity].
Defined.

(** X16: when the confirmation prompt is not answered, the suggested
    command is not run.  On an interrupt the cancellation notice is
    printed and the loop goes on; at the end of the input the exit
    notice is printed and the loop ends; any other exception of the
    reader leaves the router uncaught. *)
Theorem unanswered_confirmation_runs_nothing
    (w : World) (h : history) (line cmd : string) (e : exn) :
  reader w h "> " = Ok line -> Str.startswith line "!" = true ->
  translates w h line cmd ->
  reader w (confirmation_history w h line cmd) (confirmation_text cmd) = Raise e ->
  loop_body w h
  = (match e with
     | KeyboardInterrupt =>
         (Ok Continue, confirmation_events w line cmd ++ [cancel_notice])
     | EOFError => (Ok Break, confirmation_events w line cmd ++ [exit_notice])
     | _ => (Raise e, confirmation_events w line cmd)
     end)
  /\ executions (snd (loop_body w h)) = 0.
Proof.
  intros Hr Hb (response & text & rest & Hm & Hc & ->) Hans.
  pose proof (startswith_bang_not_exit _ Hb) as Hne.
  assert (H : loop_body w h
    = (match e with
       | KeyboardInterrupt =>
           (Ok Continue,
            confirmation_events w line (Str.strip text) ++ [cancel_notice])
       | EOFError =>
           (Ok Break, confirmation_events w line (Str.strip text) ++ [exit_notice])
       | _ => (Raise e, confirmation_events w line (Str.strip text))
       end)).
  { unfold confirmation_events, cancel_notice, exit_notice.
    unfold_names. unfold_router.
    rewrite Hr, Hne, Hb, Hm, Hc. reduce_run. rewrite Hans.
    destruct e; reflexivity. }
  split; [exact H|]. rewrite H. destruct e; reflexivity.
Qed.

Lemma unanswered_confirmation_runs_nothing_witness :
  executions
    (snd (loop_body
            (session bash_vars [Ok "!list files here"; Raise KeyboardInterrupt]
               suggests_ls child_ok) [])) = 0.
Proof.
  apply (unanswered_confirmation_runs_nothing
           (session bash_vars [Ok "!list files here"; Raise KeyboardInterrupt]
              suggests_ls child_ok)
           [] "!list files here" "ls -la" KeyboardInterrupt);
    [reflexivity | reflexivity | | reflexivity].
  exists (replies " ls -la "), " ls -la ", []. repeat split.
Defined.

(** X17: the confirmation gate.  In a pass that called the model and
    ran a command, the command is the one the translation returned, it
    was shown in the confirmation prompt, the prompt was answered, the
    answer was a yes, and the command was run once, after the answer. *)
Theorem execution_after_translation_was_confirmed
    (w : World) (h : history) (r : outcome control) (es : list event) :
  loop_body w h = (r, es) ->
  0 < translations es -> 0 < executions es ->
  exists line cmd answer tail,
    reader w h "> " = Ok line
    /\ translates w h line cmd
    /\ reader w (confirmation_history w h line cmd) (confirmation_text cmd)
       = Ok answer
    /\ affirms answer
    /\ es = confirmation_events w line cmd ++ EvRun cmd :: tail
    /\ executions tail = 0.
Proof.
  unfold confirmation_events. unfold_names. unfold_router.
  destruct (reader w h "> ") as [line|e] eqn:Hr;
    [|destruct e; intros [= <- <-]; cbn; lia].
  destruct (String.eqb (Str.lower line) "exit"); [intros [= <- <-]; cbn; lia|].
  destruct (Str.startswith line "!") eqn:Hb; cycle 1.
  { repeat case_scrutinee; intros [= <- <-]; cbn; lia. }
  destruct (model w _ _ _ _) as [response|e] eqn:Hm;
    [|destruct e; intros [= <- <-]; cbn; lia].
  destruct (choices response) as [|[[text|]] rest] eqn:Hc;
    [intros [= <- <-]; cbn; lia | | intros [= <- <-]; cbn; lia].
  reduce_run.
  destruct (reader w _ (confirmation_text (Str.strip text)))
    as [answer|e] eqn:Hans;
    [|destruct e; intros [= <- <-]; cbn; lia].
  destruct (bool_decide _) eqn:Hyes; cycle 1.
  { intros [= <- <-]; cbn; lia. }
  apply bool_decide_eq_true_1, affirmative_iff in Hyes.
  intros Hes _ _. exists line, (Str.strip text), answer.
  revert Hes. repeat case_scrutinee; intros [= <- <-]; eexists;
    (split; [reflexivity|]); (split; [eauto 10|]); (split; [exact Hans|]);
    (split; [exact Hyes|]); (split; reflexivity).
Qed.

Lemma execution_after_translation_was_confirmed_witness :
  exists line cmd answer tail,
    reader (session bash_vars [Ok "!list files here"; Ok "Y"] suggests_ls child_ok)
      [] "> " = Ok line
    /\ translates
         (session bash_vars [Ok "!list files here"; Ok "Y"] suggests_ls child_ok)
         [] line cmd
    /\ reader (session bash_vars [Ok "!list files here"; Ok "Y"] suggests_ls child_ok)
         (confirmation_history
            (session bash_vars [Ok "!list files here"; Ok "Y"] suggests_ls child_ok)
            [] line cmd)
         (confirmation_text cmd) = Ok answer
    /\ affirms answer
    /\ snd (loop_body
              (session bash_vars [Ok "!list files here"; Ok "Y"] suggests_ls child_ok)
              [])
       = confirmation_events
           (session bash_vars [Ok "!list files here"; Ok "Y"] suggests_ls child_ok)
           line cmd ++ EvRun cmd :: tail
    /\ executions tail = 0.
Proof.
  apply (execution_after_translation_was_confirmed
           (session bash_vars [Ok "!list files here"; Ok "Y"] suggests_ls child_ok)
           []
           (fst (loop_body
                   (session bash_vars [Ok "!list files here"; Ok "Y"]
                      suggests_ls child_ok) []))
           (snd (loop_body
                   (session bash_vars [Ok "!list files here"; Ok "Y"]
                      suggests_ls child_ok) [])));
    [reflexivity | vm_compute; lia | vm_compute; lia].
Defined.

(** ** More on a whole session *)

Lemma count_app (p : event -> bool) (a b : list event) :
  count p (a ++ b) = count p a + count p b.
Proof. unfold count. now rewrite List.filter_app, length_app. Qed.

(** One pass: at most one command is run and at most one request goes to
    the model; one or two prompts are shown. *)
Lemma loop_body_accounting
    (w : World) (h : history) (r : outcome control) (es : list event) :
  loop_body w h = (r, es) ->
  executions es <= 1 /\ translations es <= 1
  /\ 1 <= prompts es <= 2
  /\ executions es + translations es <= prompts es.
Proof.
  unfold_router.
  repeat case_scrutinee; intros [= <- <-]; cbn; lia.
Qed.


Lemma loop_body_break_notice (w : World) (h : history) (es : list event) :
  loop_body w h = (Ok Break, es) ->
  exists before,
    es = before ++ [EvPrint "Goodbye!"] \/ es = before ++ [exit_notice].
Proof.
  unfold exit_notice. unfold_router.
  repeat case_scrutinee; intros [= <-];
    first [ now exists [EvPrompt "> "]; left
          | eexists; right;
            match goal with
            | |- ?l = _ =>
                let n := eval cbv in (length l - 1) in
                rewrite <- (firstn_skipn n l) at 1; cbn [firstn skipn];
                reflexivity
            end ].
Qed.

Lemma main_loop_step (w : World) (n : nat) (h : history) :
  main_loop w (S n) h
  = match loop_body w h with
    | (Ok Continue, es) =>
        let '(r, es') := main_loop w n (h ++ es) in (r, es ++ es')
    | (Ok Break, es) => (Ok Terminated, es)
    | (Raise e, es) => (Raise e, es)
    end.
Proof.
  cbn [main_loop]. unfold bind.
  destruct (loop_body w h) as [[[]|e] es]; try reflexivity.
  unfold ret. now rewrite app_nil_r.
Qed.

Ltac split_session w n h :=
  rewrite main_loop_step;
  let es1 := fresh "es1" in
  let H1 := fresh "H1" in
  destruct (loop_body w h) as [[[]|?] es1] eqn:H1;
  [ let r2 := fresh "r2" in let es2 := fresh "es2" in
    let H2 := fresh "H2" in
    destruct (main_loop w n (h ++ es1)) as [r2 es2] eqn:H2 | | ].

(** X18: however a session of [n] passes goes, at most [n] commands are
    run, at most [n] requests go to the model, at most [2 * n] prompts
    are shown, and every command run and every request to the model has
    a prompt of its own that was shown before. *)
Theorem session_accounting
    (w : World) (n : nat) (h : history)
    (r : outcome router_state) (es : list event) :
  main_loop w n h = (r, es) ->
  executions es <= n /\ translations es <= n /\ prompts es <= 2 * n
  /\ executions es + translations es <= prompts es.
Proof.
  revert h r es. induction n as [|n IH]; intros h r es.
  - intros [= <- <-]. cbn. lia.
  - split_session w n h; intros [= <- <-];
      apply loop_body_accounting in H1;
      unfold executions, translations, prompts in *.
    + apply IH in H2. rewrite !count_app. lia.
    + lia.
    + lia.
Qed.

Lemma session_accounting_witness :
  executions
    (snd (main_loop
            (session bash_vars
               [Ok "!list files here"; Ok "y"; Ok "dir"; Ok "!more"; Ok "no"]
               suggests_ls child_ok) 3 [])) <= 3.
Proof.
  apply (session_accounting
           (session bash_vars
              [Ok "!list files here"; Ok "y"; Ok "dir"; Ok "!more"; Ok "no"]
              suggests_ls child_ok) 3 []
           (fst (main_loop
                   (session bash_vars
                      [Ok "!list files here"; Ok "y"; Ok "dir"; Ok "!more"; Ok "no"]
                      suggests_ls child_ok) 3 []))).
  reflexivity.
Defined.



(** X20: a session that leaves the loop has just printed the farewell or
    the exit notice: the loop is never left silently. *)
Theorem session_ends_with_a_notice
    (w : World) (n : nat) (h : history) (es : list event) :
  main_loop w n h = (Ok Terminated, es) ->
  exists before,
    es = before ++ [EvPrint "Goodbye!"] \/ es = before ++ [exit_notice].
Proof.
  revert h es. induction n as [|n IH]; intros h es; [discriminate|].
  split_session w n h; intros Heq; inversion Heq; subst; clear Heq.
  - apply IH in H2 as (before & [-> | ->]); exists (es1 ++ before);
      rewrite app_assoc; auto.
  - now apply loop_body_break_notice in H1.
Qed.

Lemma session_ends_with_a_notice_witness :
  exists before,
    snd (main_loop (session bash_vars [Ok "dir"] suggests_ls child_ok) 5 [])
    = before ++ [EvPrint "Goodbye!"]
    \/ snd (main_loop (session bash_vars [Ok "dir"] suggests_ls child_ok) 5 [])
       = before ++ [exit_notice].
Proof.
  apply (session_ends_with_a_notice
           (session bash_vars [Ok "dir"] suggests_ls child_ok) 5 []).
  reflexivity.
Defined.

(** X23: startup.  When the model cannot be loaded, [main] ends with the
    exception of the loader before the banner is printed and before any
    prompt; otherwise the model is loaded once, the two lines of the
    banner are printed, and the loop starts. *)
Theorem startup (w : World) (n : nat) (h : history) :
  (forall e,
     load_model w "TheBloke/LLaMA-2-7B-chat-GGUF" "llama-2-7b-chat.ggmlv3.q6_K.bin"
     = Raise e ->
     main w n h
     = (Raise e,
        [EvLoadModel "TheBloke/LLaMA-2-7B-chat-GGUF"
           "llama-2-7b-chat.ggmlv3.q6_K.bin"]))
  /\ (load_model w "TheBloke/LLaMA-2-7B-chat-GGUF" "llama-2-7b-chat.ggmlv3.q6_K.bin"
      = Ok tt ->
      main w n h
      = (let '(r, es) := main_loop w n (h ++ startup_events) in
         (r, startup_events ++ es))).
Proof.
  unfold main, configure_llm, bind, print, call, startup_events. split.
  - intros e ->. reflexivity.
  - intros ->. reduce_run. now destruct (main_loop w n _).
Qed.

Lemma startup_witness :
  main offline 5 []
  = (Raise (Exception "ConnectionError"),
     [EvLoadModel "TheBloke/LLaMA-2-7B-chat-GGUF" "llama-2-7b-chat.ggmlv3.q6_K.bin"])
  /\ main (session bash_vars [Ok "exit"] suggests_ls child_ok) 5 []
     = (Ok Terminated, startup_events ++ [EvPrompt "> "; EvPrint "Goodbye!"]).
Proof.
  split.
  - apply (startup offline 5 []). reflexivity.
  - destruct (startup (session bash_vars [Ok "exit"] suggests_ls child_ok) 5 [])
      as (_ & H).
    rewrite H; reflexivity.
Defined.
